(** * Office document gateway: a shallow embedding of [server.py] and of its
    single-format variant, with the properties of the gateway layer.

    Layout: Python text and paths, the exception/state monad, the model of
    the codec libraries and of the file system, the tools of [server.py]
    (module [Server]) and of the Word-only variant (module [Copy]), then
    the lemmas. *)

From Stdlib Require Import NArith Decimal Lia.
From Stdlib.Strings Require Byte.
From stdpp Require Import base option list gmap.

Local Open Scope N_scope.

(** ** Python [str]: a sequence of Unicode code points *)

Module PyStr.

Abbreviation pystr := (list N).

(** String literals of the source denote their code points: a literal is
    read as UTF-8 text and decoded (and printed back the same way). *)
Inductive literal : Set := lit_nil | lit_cons (c : N) (s : literal).

Fixpoint utf8_decode (bs : list N) : option literal :=
  match bs with
  | [] => Some lit_nil
  | b0 :: r0 =>
    if b0 <? 128 then option_map (lit_cons b0) (utf8_decode r0)
    else match r0 with
    | [] => None
    | b1 :: r1 =>
      if b0 <? 224
      then option_map (lit_cons (b0 mod 32 * 64 + b1 mod 64)) (utf8_decode r1)
      else match r1 with
      | [] => None
      | b2 :: r2 =>
        if b0 <? 240
        then option_map
               (lit_cons (b0 mod 16 * 4096 + b1 mod 64 * 64 + b2 mod 64))
               (utf8_decode r2)
        else match r2 with
        | [] => None
        | b3 :: r3 =>
          option_map
            (lit_cons (b0 mod 8 * 262144 + b1 mod 64 * 4096
                       + b2 mod 64 * 64 + b3 mod 64))
            (utf8_decode r3)
        end
      end
    end
  end.

Definition literal_of_bytes (bs : list Byte.byte) : option literal :=
  utf8_decode (map (fun b => N.of_nat (Byte.to_nat b)) bs).

Definition byte_of (n : N) : Byte.byte :=
  match Byte.of_N n with Some b => b | None => Byte.x00 end.

Definition utf8_encode_char (c : N) : list Byte.byte :=
  if c <? 128 then [byte_of c]
  else if c <? 2048 then [byte_of (192 + c / 64); byte_of (128 + c mod 64)]
  else if c <? 65536
       then [byte_of (224 + c / 4096); byte_of (128 + (c / 64) mod 64);
             byte_of (128 + c mod 64)]
  else [byte_of (240 + c / 262144); byte_of (128 + (c / 4096) mod 64);
        byte_of (128 + (c / 64) mod 64); byte_of (128 + c mod 64)].

(** Only non-empty text without control characters and quotes is printed
    as a literal. *)
Fixpoint utf8_encode (s : literal) : option (list Byte.byte) :=
  match s with
  | lit_nil => Some []
  | lit_cons c r =>
    if (c <? 32) || (c =? 34) || (c =? 127) then None
    else option_map (app (utf8_encode_char c)) (utf8_encode r)
  end.

Definition bytes_of_literal (s : literal) : option (list Byte.byte) :=
  match s with
  | lit_nil => None
  | _ => utf8_encode s
  end.

Declare Scope pystr_scope.
Delimit Scope pystr_scope with pystr.
#[warnings="-via-type-mismatch"]
String Notation list literal_of_bytes bytes_of_literal
  (via literal mapping [[nil] => lit_nil, [cons] => lit_cons]) : pystr_scope.
Open Scope pystr_scope.

(** [s.startswith(p)] and [s.endswith(p)]. *)
Fixpoint startswith (s p : pystr) {struct p} : bool :=
  match p with
  | [] => true
  | c :: p' =>
    match s with
    | [] => false
    | d :: s' => (c =? d) && startswith s' p'
    end
  end.

Definition endswith (s p : pystr) : bool := startswith (rev s) (rev p).

(** [sep.join(items)]. *)
Fixpoint join (sep : pystr) (items : list pystr) : pystr :=
  match items with
  | [] => []
  | [x] => x
  | x :: rest => x ++ sep ++ join sep rest
  end.

(** [s.split(c)] for a one-character separator: always at least one field. *)
Fixpoint split (c : N) (s : pystr) : list pystr :=
  match s with
  | [] => [[]]
  | d :: s' =>
    if d =? c then [] :: split c s'
    else match split c s' with
         | [] => [[d]]
         | f :: fs => (d :: f) :: fs
         end
  end.

(** [str.isspace] on one code point (the Unicode White_Space set that
    CPython uses for [strip]). *)
Definition isspace (c : N) : bool :=
  ((9 <=? c) && (c <=? 13)) || ((28 <=? c) && (c <=? 32))
  || (c =? 133) || (c =? 160) || (c =? 5760)
  || ((8192 <=? c) && (c <=? 8202))
  || (c =? 8232) || (c =? 8233) || (c =? 8239) || (c =? 8287) || (c =? 12288).

Fixpoint lstrip (s : pystr) : pystr :=
  match s with
  | c :: s' => if isspace c then lstrip s' else s
  | [] => []
  end.

Definition rstrip (s : pystr) : pystr := rev (lstrip (rev s)).

(** [s.strip()]. *)
Definition strip (s : pystr) : pystr := rstrip (lstrip s).

(** Truthiness of a string, and [a or b] on strings. *)
Definition truthy (s : pystr) : bool :=
  match s with [] => false | _ :: _ => true end.

Definition py_or (a b : pystr) : pystr := if truthy a then a else b.

(** [str(n)] for a non-negative [int]. *)
Fixpoint digits (d : Decimal.uint) : pystr :=
  match d with
  | Nil => []
  | D0 r => 48 :: digits r | D1 r => 49 :: digits r | D2 r => 50 :: digits r
  | D3 r => 51 :: digits r | D4 r => 52 :: digits r | D5 r => 53 :: digits r
  | D6 r => 54 :: digits r | D7 r => 55 :: digits r | D8 r => 56 :: digits r
  | D9 r => 57 :: digits r
  end.

Definition str_of_nat (n : nat) : pystr := digits (Nat.to_uint n).

(** [repr(s)] of a string, as used when a list is formatted.  Code points
    above Latin-1 are taken to be printable: the escapes [\uXXXX] and
    [\UXXXXXXXX] of the others are not modelled. *)
Definition hexdigit (n : N) : N := if n <? 10 then 48 + n else 87 + n.

Definition repr_char (quote c : N) : pystr :=
  if c =? 92 then [92; 92]
  else if c =? quote then [92; quote]
  else if c =? 10 then [92; 110]
  else if c =? 13 then [92; 114]
  else if c =? 9 then [92; 116]
  else if (c <? 32) || ((127 <=? c) && (c <=? 160)) || (c =? 173)
       then [92; 120; hexdigit (c / 16); hexdigit (c mod 16)]
  else [c].

Definition has_char (c : N) (s : pystr) : bool := existsb (N.eqb c) s.

Definition repr (s : pystr) : pystr :=
  let quote := if has_char 39 s && negb (has_char 34 s) then 34 else 39 in
  quote :: concat (map (repr_char quote) s) ++ [quote].

(** [str(items)] for a list of strings. *)
Definition repr_list (items : list pystr) : pystr :=
  "[" ++ join ", " (map repr items) ++ "]".

(** [x in items] for a list of strings. *)
Definition py_in (x : pystr) (items : list pystr) : bool :=
  bool_decide (x ∈ items).

(** [needle in hay] for two strings, as a test. *)
Fixpoint contains (hay needle : pystr) : bool :=
  startswith hay needle
  || match hay with
     | [] => false
     | _ :: rest => contains rest needle
     end.

(** [needle in hay] as a proposition. *)
Definition occurs_in (needle hay : pystr) : Prop :=
  exists pre post, hay = pre ++ needle ++ post.

End PyStr.
Import PyStr.
Local Open Scope pystr_scope.

(** ** [pathlib] paths (POSIX flavour) *)

Module PurePath.

(** A parsed path: its root ([], [/] or [//]) and its components. *)
Record Path := { root : pystr; parts : list pystr }.

Definition sep : N := 47.

(** [posixpath.splitroot]: the root and the text after it. *)
Definition splitroot (s : pystr) : pystr * pystr :=
  match s with
  | 47 :: 47 :: 47 :: _ => ("/", tail s)
  | 47 :: 47 :: rest => ("//", rest)
  | 47 :: rest => ("/", rest)
  | _ => ([], s)
  end.

Definition keep_part (x : pystr) : bool :=
  truthy x && negb (bool_decide (x = ".")).

(** Parsing drops empty and [.] components; [..] is kept as it is. *)
Definition parse_path (s : pystr) : Path :=
  let '(r, rel) := splitroot s in
  {| root := r; parts := filter keep_part (split sep rel) |}.

(** [str(path)]. *)
Definition path_str (p : Path) : pystr :=
  py_or (root p ++ join "/" (parts p)) ".".

(** [posixpath.join(a, b)]. *)
Definition posix_join (a b : pystr) : pystr :=
  if startswith b "/" then b
  else if negb (truthy a) || endswith a "/" then a ++ b
  else a ++ "/" ++ b.

(** [base / name]: the segments are joined as text and parsed again, so an
    absolute [name] replaces [base]. *)
Definition joinpath (base : Path) (name : pystr) : Path :=
  parse_path (posix_join (path_str base) name).

(** Lexical resolution of [..] components ([posixpath.normpath] on the
    components); [stack] holds the components kept so far, last first. *)
Fixpoint collapse (rooted : bool) (stack segs : list pystr) : list pystr :=
  match segs with
  | [] => rev stack
  | c :: rest =>
    if bool_decide (c = "..") then
      match stack with
      | top :: below =>
        if bool_decide (top = "..") then collapse rooted (c :: stack) rest
        else collapse rooted below rest
      | [] => if rooted then collapse rooted [] rest
              else collapse rooted [c] rest
      end
    else collapse rooted (c :: stack) rest
  end.

Definition normparts (p : Path) : list pystr :=
  collapse (truthy (root p)) [] (parts p).

(** [p] denotes a location at or below [base] once [..] is resolved. *)
Definition lies_within (base p : Path) : Prop :=
  root p = root base /\ normparts base `prefix_of` normparts p.

#[global] Instance lies_within_dec base p : Decision (lies_within base p).
Proof. unfold lies_within. apply _. Defined.

End PurePath.
Import PurePath.

(** ** Exceptions and the state of the world *)

(** A Python computation returns a value or raises; handlers in the source
    only use [str(e)], so an exception is its message. *)
Inductive outcome (A : Type) : Type :=
| Ok (a : A)
| Raised (msg : pystr).
Arguments Ok {A} a.
Arguments Raised {A} msg.

Definition obind {A B} (m : outcome A) (k : A -> outcome B) : outcome B :=
  match m with Ok a => k a | Raised e => Raised e end.

(** [for x in xs: acc = step(acc, x)] where a step may raise. *)
Fixpoint ofold {A B} (step : A -> B -> outcome A) (acc : A) (xs : list B)
  : outcome A :=
  match xs with
  | [] => Ok acc
  | x :: rest => obind (step acc x) (fun acc' => ofold step acc' rest)
  end.

(** *** Content models of the three codecs *)

(** The codecs are black boxes: each is taken to store and to give back its
    content model unchanged.  That is what the libraries do on the texts
    [kept] below; outside them the libraries refuse or rewrite a text, which
    the model does not follow: python-docx and python-pptx hand a text to
    lxml, which raises on a control character, a surrogate, [U+FFFE] and
    [U+FFFF]; python-docx turns a carriage return into a line break, which
    reads back as a newline; python-pptx and openpyxl write other control
    characters as [_xHHHH_] or refuse them; a save by openpyxl that meets a
    text which cannot be encoded stops after the target was opened.  The
    statements on appending, on what a read gives back after a creation or
    an update, and on successive updates are made for [kept] texts. *)

(** The code points XML text holds as they are, the carriage return apart:
    tab, newline, and everything from the space on that is no surrogate and
    not one of the two non-characters [U+FFFE], [U+FFFF]. *)
Definition xml_char (c : N) : bool :=
  (c =? 9) || (c =? 10) || ((32 <=? c) && (c <=? 55295))
  || ((57344 <=? c) && (c <=? 65533))
  || ((65536 <=? c) && (c <=? 1114111)).

Definition kept (t : pystr) : bool := forallb xml_char t.

(** python-docx: a document is its sequence of paragraph texts. *)
Record document := { paragraphs : list pystr }.

(** openpyxl: a worksheet has a title and rows of cells; a cell is [None]
    or a value (kept by its [str] form). *)
Abbreviation cell := (option pystr).
Record worksheet := { title : pystr; rows : list (list cell) }.
Record workbook := { sheets : list worksheet; active_index : nat }.

(** python-pptx: a shape may be a placeholder (with its index) and may have
    a text frame; a layout lists the indices of the placeholders a new slide
    takes from it.  These are taken to hold text, as the title, subtitle,
    body and object placeholders do; a placeholder for a picture, a chart or
    a table, which has no text, is not modelled. *)
Record shape := { ph_idx : option nat; text : option pystr }.
Abbreviation slide := (list shape).
Abbreviation layout := (list nat).
Record presentation := { slide_layouts : list layout; slides : list slide }.

(** *** Files *)

(** A file on disk is modelled by what each black-box reader makes of it:
    the three package codecs and [zipfile].  Nothing ties the four views
    together, so damaged and foreign files are covered. *)
Record file := {
  as_docx : outcome document;
  as_xlsx : outcome workbook;
  as_pptx : outcome presentation;
  as_zip : outcome (list pystr)
}.

(** The file system maps the text of a path to a file the process can
    reach.  A file is looked up by the text of its path, and two texts are
    taken to name two files: that holds for paths whose last components
    differ and whose files are no links, and the statements about a second
    path are made for such paths.  The other fields say where the operating
    system refuses, each
    with the text of the [OSError]: [unstatable] lists the paths without a
    file at which [stat] raises an error that [Path.exists] lets through (a
    name that is too long, a directory that may not be searched); [denied]
    the paths at which opening for writing and unlinking raise; [cut] the
    paths at which a save that has opened its target raises before it
    completes, with what is left of the file. *)
Record world := {
  disk : gmap pystr file;
  denied : gmap pystr pystr;
  unstatable : gmap pystr pystr;
  cut : gmap pystr (pystr * file)
}.

Definition M (A : Type) : Type := world -> outcome A * world.

Definition ret {A} (a : A) : M A := fun w => (Ok a, w).
Definition raise {A} (e : pystr) : M A := fun w => (Raised e, w).
Definition bind {A B} (m : M A) (k : A -> M B) : M B :=
  fun w => match m w with
           | (Ok a, w') => k a w'
           | (Raised e, w') => (Raised e, w')
           end.
Definition lift {A} (o : outcome A) : M A := fun w => (o, w).

(** [try: body  except Exception as e: handler(e)]. *)
Definition try_except {A} (body : M A) (handler : pystr -> M A) : M A :=
  fun w => match body w with
           | (Ok a, w') => (Ok a, w')
           | (Raised e, w') => handler e w'
           end.

Declare Scope py_scope.
Delimit Scope py_scope with py.
Notation "x <- m ;; k" := (bind m (fun x => k))
  (at level 100, m at next level, right associativity) : py_scope.
Notation "m ;;; k" := (bind m (fun _ => k))
  (at level 100, right associativity) : py_scope.

Local Open Scope py_scope.

Definition nl : pystr := [10].
Definition quoted (s : pystr) : pystr := "'" ++ s ++ "'".

(** ** The libraries the tools call *)

(** *** File system: [Path.exists], [os.remove], writing a file *)

Module Os.

(** [os.stat(path)]: the error [Path.exists] lets through, if there is
    one.  A file the process reaches can be examined. *)
Definition stat_error (w : world) (p : Path) : option pystr :=
  match disk w !! path_str p with
  | Some _ => None
  | None => unstatable w !! path_str p
  end.

(** [path.exists()] (Python 3.11): [stat], with the errors of a missing
    file swallowed and every other [OSError] raised. *)
Definition exists_ (p : Path) : M bool :=
  fun w => match stat_error w p with
           | Some e => (Raised e, w)
           | None => (Ok (bool_decide (is_Some (disk w !! path_str p))), w)
           end.

Definition enoent (p : Path) : pystr :=
  "[Errno 2] No such file or directory: " ++ repr (path_str p).

(** Linux refuses a component of more than 255 bytes with this error. *)
Definition too_long (p : Path) : bool :=
  existsb (fun c => (255 <? length (flat_map utf8_encode_char c))%nat)
          (parts p).

Definition enametoolong (p : Path) : pystr :=
  "[Errno 36] File name too long: " ++ repr (path_str p).

(** The disk after a file is stored at [p], and after the file at [p] is
    unlinked: [stat] on a path that was reached raises no more, and on the
    path of a file that is gone it reports a missing file. *)
Definition put (p : Path) (f : file) (w : world) : world :=
  {| disk := <[path_str p := f]> (disk w); denied := denied w;
     unstatable := delete (path_str p) (unstatable w); cut := cut w |}.
Definition drop (p : Path) (w : world) : world :=
  {| disk := delete (path_str p) (disk w); denied := denied w;
     unstatable := delete (path_str p) (unstatable w); cut := cut w |}.

(** A save opens its target, which truncates it, and then writes.  Where
    the path cannot be examined or opened nothing changes; where the save
    is cut short the target holds what is left; otherwise the whole file
    is replaced. *)
Definition write (p : Path) (f : file) : M unit :=
  fun w => match stat_error w p with
           | Some e => (Raised e, w)
           | None =>
             match denied w !! path_str p with
             | Some e => (Raised e, w)
             | None =>
               match cut w !! path_str p with
               | Some (e, rest) => (Raised e, put p rest w)
               | None => (Ok tt, put p f w)
               end
             end
           end.

Definition remove (p : Path) : M unit :=
  fun w => match denied w !! path_str p with
           | Some e => (Raised e, w)
           | None =>
             match disk w !! path_str p with
             | Some _ => (Ok tt, drop p w)
             | None => (Raised (enoent p), w)
             end
           end.

(** Reading one view of the file at [p]. *)
Definition read {A} (view : file -> outcome A) (missing : pystr) (p : Path)
  : M A :=
  fun w => match disk w !! path_str p with
           | Some f => (view f, w)
           | None => (Raised missing, w)
           end.

End Os.

(** *** [zipfile] *)

Module Zip.

(** [ZipFile(path, "r").namelist()]. *)
Definition namelist (p : Path) : M (list pystr) :=
  Os.read as_zip (Os.enoent p) p.

End Zip.

(** Content types of the main part of each package, for the messages the
    codecs raise on a package of another format. *)
Definition ct_word : pystr :=
  "application/vnd.openxmlformats-officedocument.wordprocessingml.document.main+xml".
Definition ct_sheet : pystr :=
  "application/vnd.openxmlformats-officedocument.spreadsheetml.sheet.main+xml".
Definition ct_slides : pystr :=
  "application/vnd.openxmlformats-officedocument.presentationml.presentation.main+xml".

Definition not_word (p : Path) (ct : pystr) : pystr :=
  "file " ++ quoted (path_str p) ++ " is not a Word file, content type is "
    ++ quoted ct.
Definition not_powerpoint (p : Path) (ct : pystr) : pystr :=
  "file " ++ quoted (path_str p)
    ++ " is not a PowerPoint file, content type is " ++ quoted ct.
Definition not_workbook : pystr := "File contains no valid workbook part".
Definition package_not_found (p : Path) : pystr :=
  "Package not found at " ++ quoted (path_str p).

(** *** python-docx *)

Module Docx.

(** [Document()]: the default template has no paragraph. *)
Definition Document_new : document := {| paragraphs := [] |}.

(** [doc.add_paragraph(text)]. *)
Definition add_paragraph (doc : document) (t : pystr) : document :=
  {| paragraphs := paragraphs doc ++ [t] |}.

(** Principal entries of a saved package. *)
Definition entries : list pystr :=
  ["[Content_Types].xml"; "_rels/.rels"; "docProps/core.xml";
   "docProps/app.xml"; "word/document.xml"; "word/styles.xml"].

Definition package (p : Path) (doc : document) : file :=
  {| as_docx := Ok doc;
     as_xlsx := Raised not_workbook;
     as_pptx := Raised (not_powerpoint p ct_word);
     as_zip := Ok entries |}.

(** [doc.save(path)] and [Document(path)]. *)
Definition save (doc : document) (p : Path) : M unit :=
  Os.write p (package p doc).

Definition Document (p : Path) : M document :=
  Os.read as_docx (package_not_found p) p.

End Docx.

(** *** openpyxl *)

Module Xlsx.

(** [Workbook()]: one empty sheet, active. *)
Definition Workbook_new : workbook :=
  {| sheets := [{| title := "Sheet"; rows := [] |}]; active_index := 0 |}.

(** [wb.active]: the active sheet (by position), or [None]. *)
Definition active (wb : workbook) : option nat :=
  if bool_decide (active_index wb < length (sheets wb))%nat
  then Some (active_index wb) else None.

Definition sheetnames (wb : workbook) : list pystr := title <$> sheets wb.

(** Position of the first sheet satisfying [f]. *)
Fixpoint find_index {A} (f : A -> bool) (l : list A) : option nat :=
  match l with
  | [] => None
  | x :: rest => if f x then Some 0%nat else S <$> find_index f rest
  end.

(** [wb[name]]. *)
Definition getitem (wb : workbook) (name : pystr) : outcome (option nat) :=
  match find_index (fun ws => bool_decide (title ws = name)) (sheets wb) with
  | Some i => Ok (Some i)
  | None => Raised (repr ("Worksheet " ++ name ++ " does not exist."))
  end.

(** A call on the result of [wb.active] when that is [None]. *)
Definition deref (ws : option nat) (attr : pystr) : outcome nat :=
  match ws with
  | Some i => Ok i
  | None => Raised ("'NoneType' object has no attribute " ++ quoted attr)
  end.

(** Characters a sheet title must not contain: [\ * ? : / [ ]]. *)
Definition invalid_title_char (c : N) : bool :=
  bool_decide (c ∈ [92; 42; 63; 58; 47; 91; 93]).

(** The checks of the title setter. *)
Definition check_title (name : pystr) : outcome unit :=
  match List.find invalid_title_char name with
  | Some c => Raised ("Invalid character " ++ [c] ++ " found in sheet title")
  | None => if truthy name then Ok tt
            else Raised "Title must have at least one character"
  end.

(** [ws.title = name].  The renaming openpyxl applies when the new title
    clashes with another sheet is not modelled. *)
Definition set_title (wb : workbook) (ws : option nat) (name : pystr)
  : outcome workbook :=
  obind (deref ws "title") (fun i =>
  obind (check_title name) (fun _ =>
  Ok {| sheets := alter (fun s => {| title := name; rows := rows s |}) i
                        (sheets wb);
        active_index := active_index wb |})).

(** [ws.append(row)]: a new row after the last one. *)
Definition append (wb : workbook) (ws : option nat) (r : list pystr)
  : outcome workbook :=
  obind (deref ws "append") (fun i =>
  Ok {| sheets := alter (fun s => {| title := title s;
                                     rows := rows s ++ [Some <$> r] |}) i
                        (sheets wb);
        active_index := active_index wb |}).

(** [wb.create_sheet(name)]: a new empty sheet after the others, titled
    [name], or [Sheet] when [name] is empty.  The number openpyxl appends to
    a title that equals another one up to case is not modelled: the
    statements about a new sheet leave its title open. *)
Definition create_sheet (wb : workbook) (name : pystr)
  : outcome (workbook * option nat) :=
  let t := if truthy name then name else "Sheet" in
  obind (check_title t) (fun _ =>
  Ok ({| sheets := sheets wb ++ [{| title := t; rows := [] |}];
         active_index := active_index wb |}, Some (length (sheets wb)))).

(** A cell text openpyxl stores as a string and gives back unchanged: a
    [kept] text that is not empty (an empty text is stored as a cell without
    a value), is no formula (more than one character, the first an equals
    sign), does not hold the escape prefix [x005F_], which the reader of
    shared strings drops, and fits the limit of 32767 characters. *)
Definition formula (t : pystr) : bool :=
  match t with
  | 61 :: _ :: _ => true
  | _ => false
  end.

Definition literal_text (t : pystr) : bool :=
  truthy t && kept t && negb (formula t) && negb (contains t "x005F_")
  && (N.of_nat (length t) <=? 32767).

(** [ws.iter_rows()]: the rows of the used range, every row as wide as the
    widest one. *)
Definition pad (width : nat) (r : list cell) : list cell :=
  r ++ replicate (width - length r) None.

Definition grid (rs : list (list cell)) : list (list cell) :=
  pad (max_list (length <$> rs)) <$> rs.

Definition iter_rows (wb : workbook) (ws : option nat)
  : outcome (list (list cell)) :=
  obind (deref ws "iter_rows") (fun i =>
  match sheets wb !! i with
  | Some s => Ok (grid (rows s))
  | None => Raised "list index out of range"
  end).

Definition entries : list pystr :=
  ["docProps/app.xml"; "docProps/core.xml"; "xl/theme/theme1.xml";
   "xl/worksheets/sheet1.xml"; "xl/styles.xml"; "_rels/.rels";
   "xl/workbook.xml"; "xl/_rels/workbook.xml.rels";
   "[Content_Types].xml"].

Definition package (p : Path) (wb : workbook) : file :=
  {| as_docx := Raised (not_word p ct_sheet);
     as_xlsx := Ok wb;
     as_pptx := Raised (not_powerpoint p ct_sheet);
     as_zip := Ok entries |}.

(** [wb.save(path)] and [load_workbook(path)] (with or without
    [data_only]: cells hold values, not formulas, in this model). *)
Definition save (wb : workbook) (p : Path) : M unit :=
  Os.write p (package p wb).

Definition load_workbook (p : Path) : M workbook :=
  Os.read as_xlsx (Os.enoent p) p.

End Xlsx.

(** *** python-pptx *)

Module Pptx.

(** Placeholders of the layouts of the default template that a new slide
    inherits: Title Slide, Title and Content, Section Header, Two Content,
    Comparison, Title Only, Blank, Content with Caption, Picture with
    Caption, Title and Vertical Text, Vertical Title and Text. *)
Definition default_layouts : list layout :=
  [[0; 1]; [0; 1]; [0; 1]; [0; 1; 2]; [0; 1; 2; 3; 4]; [0]; [];
   [0; 1; 2]; [0; 1; 2]; [0; 1]; [0; 1]]%nat.

(** [Presentation()]: the default template, no slide. *)
Definition Presentation_new : presentation :=
  {| slide_layouts := default_layouts; slides := [] |}.

(** [prs.slide_layouts[i]]. *)
Definition layout_at (prs : presentation) (i : nat) : outcome layout :=
  match slide_layouts prs !! i with
  | Some l => Ok l
  | None => Raised "slide layout index out of range"
  end.

(** [prs.slides.add_slide(layout)]: a new last slide with one empty
    placeholder per placeholder of the layout; the result is the
    presentation and the position of the new slide. *)
Definition new_slide (l : layout) : slide :=
  (fun i => {| ph_idx := Some i; text := Some [] |}) <$> l.

Definition add_slide (prs : presentation) (l : layout) : presentation * nat :=
  ({| slide_layouts := slide_layouts prs; slides := slides prs ++ [new_slide l] |},
   length (slides prs)).

Definition is_placeholder (idx : nat) (s : shape) : bool :=
  bool_decide (ph_idx s = Some idx).

(** Assigning [.text] of the first shape of slide [k] that satisfies
    [which]; [missing] is raised when the slide has no such shape. *)
Definition set_text (which : shape -> bool) (missing : pystr)
    (prs : presentation) (k : nat) (t : pystr) : outcome presentation :=
  match slides prs !! k with
  | None => Raised "list index out of range"
  | Some sl =>
    match Xlsx.find_index which sl with
    | None => Raised missing
    | Some j =>
      Ok {| slide_layouts := slide_layouts prs;
            slides := <[k := alter (fun s => {| ph_idx := ph_idx s;
                                                 text := Some t |}) j sl]>
                        (slides prs) |}
    end
  end.

(** [slide.shapes.title.text = t]: the title is the placeholder of index 0,
    [None] when the slide has none. *)
Definition set_title_text : presentation -> nat -> pystr -> outcome presentation :=
  set_text (is_placeholder 0)
           "'NoneType' object has no attribute 'text'".

(** [slide.placeholders[idx].text = t]. *)
Definition set_placeholder_text (idx : nat)
  : presentation -> nat -> pystr -> outcome presentation :=
  set_text (is_placeholder idx)
           (repr ("no placeholder on this slide with idx == " ++ str_of_nat idx)).

Definition entries : list pystr :=
  ["[Content_Types].xml"; "_rels/.rels"; "docProps/app.xml";
   "docProps/core.xml"; "ppt/presentation.xml";
   "ppt/_rels/presentation.xml.rels"].

Definition package (p : Path) (prs : presentation) : file :=
  {| as_docx := Raised (not_word p ct_slides);
     as_xlsx := Raised not_workbook;
     as_pptx := Ok prs;
     as_zip := Ok entries |}.

(** [prs.save(path)] and [Presentation(path)]. *)
Definition save (prs : presentation) (p : Path) : M unit :=
  Os.write p (package p prs).

Definition Presentation (p : Path) : M presentation :=
  Os.read as_pptx (package_not_found p) p.

End Pptx.

(** ** [str.splitlines] *)

Module PyLines.

(** The line boundaries of [splitlines]: [\n], [\r], [\v], [\f], the
    separators [\x1c]-[\x1e], [\x85] and the Unicode line and paragraph
    separators. *)
Definition is_linebreak (c : N) : bool :=
  bool_decide (c ∈ [10; 11; 12; 13; 28; 29; 30; 133; 8232; 8233]).

(** [cur] is the line being read, last character first.  A boundary ends
    the line ([\r\n] counts once); text after the last boundary is a line
    only when it is not empty. *)
Fixpoint lines_from (cur s : pystr) : list pystr :=
  match s with
  | [] => match cur with [] => [] | _ :: _ => [rev cur] end
  | c :: rest =>
    if is_linebreak c then
      rev cur :: match rest with
                 | d :: rest' =>
                   if (c =? 13) && (d =? 10) then lines_from [] rest'
                   else lines_from [] rest
                 | [] => lines_from [] rest
                 end
    else lines_from (c :: cur) rest
  end.

(** [s.splitlines()]. *)
Definition splitlines (s : pystr) : list pystr := lines_from [] s.

End PyLines.
Import PyLines.

(** ** The tools of [server.py] *)

Module Server.

(** [DOCS_DIR = Path"./documents"]. *)
Definition DOCS_DIR : Path := parse_path "./documents".

Definition get_path (filename ext : pystr) : Path :=
  let filename := if negb (endswith filename ext) then filename ++ ext
                  else filename in
  joinpath DOCS_DIR filename.

(** *** Word *)

Definition create_docx (filename content : pystr) : M pystr :=
  let path := get_path filename ".docx" in
  ex <- Os.exists_ path ;;
  if ex : bool then ret ("❌ File already exists: " ++ path_str path)
  else
    try_except
      (let doc := Docx.Document_new in
       let doc := Docx.add_paragraph doc
                    (if truthy (strip content) then content
                     else "(new document)") in
       Docx.save doc path ;;;
       ret ("✅ Created Word document: " ++ path_str path))
      (fun e => ret ("❌ Failed to create Word doc: " ++ e)).

Definition read_docx (filename : pystr) : M pystr :=
  let path := get_path filename ".docx" in
  ex <- Os.exists_ path ;;
  if negb ex then ret ("❌ File not found: " ++ path_str path)
  else
    try_except
      (doc <- Docx.Document path ;;
       ret (py_or (join nl (paragraphs doc)) "(empty document)"))
      (fun e =>
         early <- try_except
           (files <- Zip.namelist path ;;
            if negb (py_in "word/document.xml" files)
            then ret (Some ("❌ Not a Word file. Contains: "
                              ++ repr_list (take 10 files) ++ "..."))
            else ret None)
           (fun _ => ret None) ;;
         match early with
         | Some r => ret r
         | None => ret ("❌ Failed to read Word doc: " ++ e)
         end).

Definition update_docx (filename : pystr) (changes : list pystr) : M pystr :=
  let path := get_path filename ".docx" in
  ex <- Os.exists_ path ;;
  if negb ex then ret ("❌ File not found: " ++ path_str path)
  else
    try_except
      (doc <- Docx.Document path ;;
       let doc := fold_left Docx.add_paragraph changes doc in
       Docx.save doc path ;;;
       ret ("✅ Updated Word doc " ++ filename ++ " with "
              ++ str_of_nat (length changes) ++ " changes."))
      (fun e => ret ("❌ Failed to update Word doc: " ++ e)).

Definition delete_docx (filename : pystr) : M pystr :=
  let path := get_path filename ".docx" in
  ex <- Os.exists_ path ;;
  if negb ex then ret ("❌ File not found: " ++ path_str path)
  else
    try_except
      (Os.remove path ;;;
       ret ("🗑️ Deleted Word doc: " ++ path_str path))
      (fun e => ret ("❌ Failed to delete Word doc: " ++ e)).

(** *** Excel *)

Definition create_xlsx (filename sheet_name : pystr)
    (data : option (list (list pystr))) : M pystr :=
  let path := get_path filename ".xlsx" in
  ex <- Os.exists_ path ;;
  if ex : bool then ret ("❌ File already exists: " ++ path_str path)
  else
    try_except
      (let wb := Xlsx.Workbook_new in
       let ws := Xlsx.active wb in
       wb <- lift (Xlsx.set_title wb ws sheet_name) ;;
       wb <- lift (match data with
                   | Some ((_ :: _) as rs) =>
                     ofold (fun wb r => Xlsx.append wb ws r) wb rs
                   | _ => Ok wb
                   end) ;;
       Xlsx.save wb path ;;;
       ret ("✅ Created Excel file: " ++ path_str path))
      (fun e => ret ("❌ Failed to create Excel: " ++ e)).

Definition cell_text (c : cell) : pystr := default [] c.

Definition read_xlsx (filename : pystr) (sheet_name : option pystr) : M pystr :=
  let path := get_path filename ".xlsx" in
  ex <- Os.exists_ path ;;
  if negb ex then ret ("❌ File not found: " ++ path_str path)
  else
    try_except
      (wb <- Xlsx.load_workbook path ;;
       ws <- lift (match sheet_name with
                   | Some ((_ :: _) as name) => Xlsx.getitem wb name
                   | _ => Ok (Xlsx.active wb)
                   end) ;;
       cells <- lift (Xlsx.iter_rows wb ws) ;;
       let rows := (fun r => cell_text <$> r) <$> cells in
       ret (py_or (join nl (join ", " <$> rows)) "(empty sheet)"))
      (fun e => ret ("❌ Failed to read Excel: " ++ e)).

Definition update_xlsx (filename sheet_name : pystr)
    (data : list (list pystr)) : M pystr :=
  let path := get_path filename ".xlsx" in
  ex <- Os.exists_ path ;;
  if negb ex then ret ("❌ File not found: " ++ path_str path)
  else
    try_except
      (wb <- Xlsx.load_workbook path ;;
       sel <- lift (if py_in sheet_name (Xlsx.sheetnames wb)
                    then obind (Xlsx.getitem wb sheet_name)
                               (fun ws => Ok (wb, ws))
                    else Xlsx.create_sheet wb sheet_name) ;;
       let '(wb, ws) := sel in
       wb <- lift (ofold (fun wb r => Xlsx.append wb ws r) wb data) ;;
       Xlsx.save wb path ;;;
       ret ("✅ Updated Excel file " ++ filename ++ " with "
              ++ str_of_nat (length data) ++ " rows."))
      (fun e => ret ("❌ Failed to update Excel: " ++ e)).

Definition delete_xlsx (filename : pystr) : M pystr :=
  let path := get_path filename ".xlsx" in
  ex <- Os.exists_ path ;;
  if negb ex then ret ("❌ File not found: " ++ path_str path)
  else
    try_except
      (Os.remove path ;;;
       ret ("🗑️ Deleted Excel file: " ++ path_str path))
      (fun e => ret ("❌ Failed to delete Excel: " ++ e)).

(** *** PowerPoint *)

Definition create_pptx (filename title content : pystr) : M pystr :=
  let path := get_path filename ".pptx" in
  ex <- Os.exists_ path ;;
  if ex : bool then ret ("❌ File already exists: " ++ path_str path)
  else
    try_except
      (let prs := Pptx.Presentation_new in
       slide_layout <- lift (Pptx.layout_at prs 0) ;;
       let '(prs, slide) := Pptx.add_slide prs slide_layout in
       prs <- lift (Pptx.set_title_text prs slide title) ;;
       prs <- lift (Pptx.set_placeholder_text 1 prs slide content) ;;
       Pptx.save prs path ;;;
       ret ("✅ Created PowerPoint: " ++ path_str path))
      (fun e => ret ("❌ Failed to create PowerPoint: " ++ e)).

(** The text of one slide: its number and the text of every shape that has
    a [text] attribute. *)
Definition slide_text (i : nat) (sl : slide) : pystr :=
  let texts := omap text sl in
  "Slide " ++ str_of_nat (S i) ++ ":" ++ nl ++ join nl texts.

Definition read_pptx (filename : pystr) : M pystr :=
  let path := get_path filename ".pptx" in
  ex <- Os.exists_ path ;;
  if negb ex then ret ("❌ File not found: " ++ path_str path)
  else
    try_except
      (prs <- Pptx.Presentation path ;;
       let slides_text := imap slide_text (slides prs) in
       ret (py_or (join (nl ++ nl) slides_text) "(empty presentation)"))
      (fun e => ret ("❌ Failed to read PowerPoint: " ++ e)).

(** [s.get(key, "")] on a slide description. *)
Definition get (s : gmap pystr pystr) (key : pystr) : pystr :=
  default [] (s !! key).

Definition add_described_slide (prs : presentation) (s : gmap pystr pystr)
  : outcome presentation :=
  obind (Pptx.layout_at prs 1) (fun layout =>
  let '(prs, slide) := Pptx.add_slide prs layout in
  obind (Pptx.set_title_text prs slide (get s "title")) (fun prs =>
  Pptx.set_placeholder_text 1 prs slide (get s "content"))).

Definition update_pptx (filename : pystr) (slides : list (gmap pystr pystr))
  : M pystr :=
  let path := get_path filename ".pptx" in
  ex <- Os.exists_ path ;;
  if negb ex then ret ("❌ File not found: " ++ path_str path)
  else
    try_except
      (prs <- Pptx.Presentation path ;;
       prs <- lift (ofold add_described_slide prs slides) ;;
       Pptx.save prs path ;;;
       ret ("✅ Updated PowerPoint " ++ filename ++ " with "
              ++ str_of_nat (length slides) ++ " new slides."))
      (fun e => ret ("❌ Failed to update PowerPoint: " ++ e)).

Definition delete_pptx (filename : pystr) : M pystr :=
  let path := get_path filename ".pptx" in
  ex <- Os.exists_ path ;;
  if negb ex then ret ("❌ File not found: " ++ path_str path)
  else
    try_except
      (Os.remove path ;;;
       ret ("🗑️ Deleted PowerPoint: " ++ path_str path))
      (fun e => ret ("❌ Failed to delete PowerPoint: " ++ e)).

End Server.

(** ** The tools of the Word-only variant *)

(** The four tools that share their names with [server.py], and the
    variant's conversion of a text file, which reads outside the documents
    directory. *)

Module Copy.

Definition DOCS_DIR : Path := parse_path "./documents".

Definition get_doc_path (filename : pystr) : Path :=
  let filename := if negb (endswith filename ".docx")
                  then filename ++ ".docx" else filename in
  joinpath DOCS_DIR filename.

Definition create_docx (filename content : pystr) : M pystr :=
  let path := get_doc_path filename in
  ex <- Os.exists_ path ;;
  if ex : bool then ret ("❌ File already exists: " ++ path_str path)
  else
    try_except
      (let doc := Docx.Document_new in
       let doc := if truthy (strip content)
                  then Docx.add_paragraph doc content
                  else Docx.add_paragraph doc "(new document)" in
       Docx.save doc path ;;;
       _ <- Docx.Document path ;;
       ret ("✅ Created document: " ++ path_str path))
      (fun e => ret ("❌ Failed to create document: " ++ e)).

Definition read_docx (filename : pystr) : M pystr :=
  let path := get_doc_path filename in
  ex <- Os.exists_ path ;;
  if negb ex then ret ("❌ File not found: " ++ path_str path)
  else
    try_except
      (doc <- Docx.Document path ;;
       let text := join nl (paragraphs doc) in
       ret (py_or text "(empty document)"))
      (fun e =>
         try_except
           (files <- Zip.namelist path ;;
            if negb (py_in "word/document.xml" files)
            then ret ("❌ " ++ filename
                        ++ " is an OOXML container but not a Word document."
                        ++ nl ++ "Contains: " ++ repr_list (take 10 files)
                        ++ "...")
            else ret ("❌ Could not read " ++ filename ++ ": " ++ e))
           (fun _ => ret ("❌ " ++ filename
                            ++ " is not a valid .docx (possibly corrupted).")
           )).

Definition update_docx (filename : pystr) (changes : list pystr) : M pystr :=
  let path := get_doc_path filename in
  ex <- Os.exists_ path ;;
  if negb ex then ret ("❌ File not found: " ++ path_str path)
  else
    try_except
      (doc <- Docx.Document path ;;
       let doc := fold_left Docx.add_paragraph changes doc in
       Docx.save doc path ;;;
       ret ("✅ Updated " ++ filename ++ " with "
              ++ str_of_nat (length changes) ++ " changes."))
      (fun e => ret ("❌ Failed to update " ++ filename ++ ": " ++ e)).

Definition delete_docx (filename : pystr) : M pystr :=
  let path := get_doc_path filename in
  ex <- Os.exists_ path ;;
  if negb ex then ret ("❌ File not found: " ++ path_str path)
  else
    try_except
      (Os.remove path ;;;
       ret ("🗑️ Deleted: " ++ path_str path))
      (fun e => ret ("❌ Failed to delete " ++ filename ++ ": " ++ e)).

(** The text a file gives when it is opened as UTF-8 text with decoding
    errors ignored ([open(path, "r", encoding="utf-8", errors="ignore")]
    and [read()]) is a parameter of the conversion. *)
Section Convert.

Variable as_text : file -> outcome pystr.

Definition convert_to_docx (input_file output_file : pystr) : M pystr :=
  let in_path := parse_path input_file in
  let out_path := get_doc_path output_file in
  ex <- Os.exists_ in_path ;;
  if negb ex then ret ("❌ Input file not found: " ++ path_str in_path)
  else
    try_except
      (text <- Os.read as_text (Os.enoent in_path) in_path ;;
       let doc := Docx.Document_new in
       let doc := fold_left Docx.add_paragraph (splitlines text) doc in
       Docx.save doc out_path ;;;
       ret ("✅ Converted " ++ path_str in_path ++ " → "
              ++ path_str out_path))
      (fun e => ret ("❌ Could not convert " ++ input_file ++ ": " ++ e)).

End Convert.

End Copy.

(** ** The tool surface *)

(** The operations registered with the dispatcher ([@mcp.tool()]), with
    their arguments. *)
Inductive tool : Type :=
| create_word (filename content : pystr)
| read_word (filename : pystr)
| update_word (filename : pystr) (changes : list pystr)
| delete_word (filename : pystr)
| create_spreadsheet (filename sheet_name : pystr)
                     (data : option (list (list pystr)))
| read_spreadsheet (filename : pystr) (sheet_name : option pystr)
| update_spreadsheet (filename sheet_name : pystr) (data : list (list pystr))
| delete_spreadsheet (filename : pystr)
| create_presentation (filename title content : pystr)
| read_presentation (filename : pystr)
| update_presentation (filename : pystr) (slides : list (gmap pystr pystr))
| delete_presentation (filename : pystr).

Definition invoke (t : tool) : M pystr :=
  match t with
  | create_word f c => Server.create_docx f c
  | read_word f => Server.read_docx f
  | update_word f cs => Server.update_docx f cs
  | delete_word f => Server.delete_docx f
  | create_spreadsheet f s d => Server.create_xlsx f s d
  | read_spreadsheet f s => Server.read_xlsx f s
  | update_spreadsheet f s d => Server.update_xlsx f s d
  | delete_spreadsheet f => Server.delete_xlsx f
  | create_presentation f t c => Server.create_pptx f t c
  | read_presentation f => Server.read_pptx f
  | update_presentation f ss => Server.update_pptx f ss
  | delete_presentation f => Server.delete_pptx f
  end.

Definition is_read (t : tool) : bool :=
  match t with
  | read_word _ | read_spreadsheet _ _ | read_presentation _ => true
  | _ => false
  end.

(** The tools of the Word-only variant. *)
Inductive copy_tool : Type :=
| copy_create (filename content : pystr)
| copy_read (filename : pystr)
| copy_update (filename : pystr) (changes : list pystr)
| copy_delete (filename : pystr).

Definition copy_invoke (t : copy_tool) : M pystr :=
  match t with
  | copy_create f c => Copy.create_docx f c
  | copy_read f => Copy.read_docx f
  | copy_update f cs => Copy.update_docx f cs
  | copy_delete f => Copy.delete_docx f
  end.

Definition copy_is_read (t : copy_tool) : bool :=
  match t with copy_read _ => true | _ => false end.

(** ** Vocabulary of the specification *)

Inductive format : Type := Word | Spreadsheet | Presentation.

(** Canonical suffix and main part of each format. *)
Definition suffix (fmt : format) : pystr :=
  match fmt with
  | Word => ".docx" | Spreadsheet => ".xlsx" | Presentation => ".pptx"
  end.

Definition manifest (fmt : format) : pystr :=
  match fmt with
  | Word => "word/document.xml"
  | Spreadsheet => "xl/workbook.xml"
  | Presentation => "ppt/presentation.xml"
  end.

(** [resolve(name, format)]. *)
Definition resolve (name : pystr) (fmt : format) : Path :=
  Server.get_path name (suffix fmt).

Definition present (w : world) (p : Path) : Prop :=
  is_Some (disk w !! path_str p).
Definition absent (w : world) (p : Path) : Prop :=
  disk w !! path_str p = None.

(** What keeps a document from being made or replaced at [p], if anything:
    the path cannot be examined, cannot be opened for writing, or the save
    is cut short. *)
Definition hindrance (w : world) (p : Path) : option pystr :=
  match Os.stat_error w p with
  | Some e => Some e
  | None =>
    match denied w !! path_str p with
    | Some e => Some e
    | None => fst <$> cut w !! path_str p
    end
  end.

Definition writable (w : world) (p : Path) : Prop := hindrance w p = None.

(** The uniform operations of the adapters: [create] with the defaults of
    the signatures ([content] is the only cell of the only row of sheet
    [Sheet1], and the body of a slide titled [New Presentation]). *)
Definition create (fmt : format) (name content : pystr) : M pystr :=
  match fmt with
  | Word => Server.create_docx name content
  | Spreadsheet => Server.create_xlsx name "Sheet1" (Some [[content]])
  | Presentation => Server.create_pptx name "New Presentation" content
  end.

Definition read (fmt : format) (name : pystr) : M pystr :=
  match fmt with
  | Word => Server.read_docx name
  | Spreadsheet => Server.read_xlsx name None
  | Presentation => Server.read_pptx name
  end.

Definition delete_ (fmt : format) (name : pystr) : M pystr :=
  match fmt with
  | Word => Server.delete_docx name
  | Spreadsheet => Server.delete_xlsx name
  | Presentation => Server.delete_pptx name
  end.

(** The path a tool call operates on, and whether it creates. *)
Definition target (t : tool) : Path :=
  match t with
  | create_word f _ | read_word f | update_word f _ | delete_word f =>
    resolve f Word
  | create_spreadsheet f _ _ | read_spreadsheet f _
  | update_spreadsheet f _ _ | delete_spreadsheet f =>
    resolve f Spreadsheet
  | create_presentation f _ _ | read_presentation f
  | update_presentation f _ | delete_presentation f =>
    resolve f Presentation
  end.

Definition is_create (t : tool) : bool :=
  match t with
  | create_word _ _ | create_spreadsheet _ _ _ | create_presentation _ _ _ =>
    true
  | _ => false
  end.

(** The package a successful [create] stores, and the head of its answer. *)
Definition first_paragraph (content : pystr) : pystr :=
  if truthy (strip content) then content else "(new document)".

Definition title_slide (title content : pystr) : slide :=
  [{| ph_idx := Some 0%nat; text := Some title |};
   {| ph_idx := Some 1%nat; text := Some content |}].

Definition initial (fmt : format) (p : Path) (content : pystr) : file :=
  match fmt with
  | Word => Docx.package p {| paragraphs := [first_paragraph content] |}
  | Spreadsheet =>
    Xlsx.package p {| sheets := [{| title := "Sheet1";
                                    rows := [[Some content]] |}];
                      active_index := 0 |}
  | Presentation =>
    Pptx.package p {| slide_layouts := Pptx.default_layouts;
                      slides := [title_slide "New Presentation" content] |}
  end.

Definition created (fmt : format) (p : Path) : pystr :=
  match fmt with
  | Word => "✅ Created Word document: " ++ path_str p
  | Spreadsheet => "✅ Created Excel file: " ++ path_str p
  | Presentation => "✅ Created PowerPoint: " ++ path_str p
  end.

Definition deleted (fmt : format) (p : Path) : pystr :=
  match fmt with
  | Word => "🗑️ Deleted Word doc: " ++ path_str p
  | Spreadsheet => "🗑️ Deleted Excel file: " ++ path_str p
  | Presentation => "🗑️ Deleted PowerPoint: " ++ path_str p
  end.

(** Outcome markers. *)
Definition ok_mark : pystr := "✅".
Definition fail_mark : pystr := "❌".
Definition bin_mark : pystr := "🗑️".

Definition marked (s : pystr) : bool :=
  startswith s ok_mark || startswith s fail_mark || startswith s bin_mark.

(** The two lifecycle failures, as the tools word them. *)
Definition already_exists (p : Path) : pystr :=
  "❌ File already exists: " ++ path_str p.
Definition not_found (p : Path) : pystr :=
  "❌ File not found: " ++ path_str p.

(** What a successful read shows of each content model. *)
Definition word_text (doc : document) : pystr :=
  py_or (join nl (paragraphs doc)) "(empty document)".
Definition sheet_text (rs : list (list cell)) : pystr :=
  py_or (join nl (join ", "
                    <$> ((fun r => Server.cell_text <$> r) <$> Xlsx.grid rs)))
        "(empty sheet)".
Definition deck_text (sls : list slide) : pystr :=
  py_or (join (nl ++ nl) (imap Server.slide_text sls))
        "(empty presentation)".

(** The fixed marker for an empty content model. *)
Definition empty_marker (fmt : format) : pystr :=
  match fmt with
  | Word => "(empty document)"
  | Spreadsheet => "(empty sheet)"
  | Presentation => "(empty presentation)"
  end.

(** What a successful read returns: the text of the content found in the
    file the call resolves to. *)
Definition shown (t : tool) (w : world) (s : pystr) : Prop :=
  exists f, disk w !! path_str (target t) = Some f /\
  match t with
  | read_word _ => exists doc, as_docx f = Ok doc /\ s = word_text doc
  | read_spreadsheet _ _ =>
    exists wb sh, as_xlsx f = Ok wb /\ sh ∈ sheets wb /\
                  s = sheet_text (rows sh)
  | read_presentation _ =>
    exists prs, as_pptx f = Ok prs /\ s = deck_text (slides prs)
  | _ => False
  end.

Definition copy_shown (t : copy_tool) (w : world) (s : pystr) : Prop :=
  match t with
  | copy_read name =>
    exists f doc, disk w !! path_str (Copy.get_doc_path name) = Some f /\
                  as_docx f = Ok doc /\ s = word_text doc
  | _ => False
  end.

(** Classification of a read failure. *)
Inductive classification : Type :=
| NotAPackage
| WrongSchema (sample : list pystr)
| OtherReadError (msg : pystr).

(** The diagnosis as the specification words it: the view of the file as a
    generic archive, the expected entry, and the message of the parse
    exception give one of three classes, in priority order. *)
Definition spec_diagnose (zip : outcome (list pystr)) (expected e : pystr)
  : classification :=
  match zip with
  | Raised _ => NotAPackage
  | Ok names =>
    if py_in expected names then OtherReadError e
    else WrongSchema (take 10 names)
  end.

(** The wording of each class by the Word-only variant. *)
Definition copy_report (filename : pystr) (c : classification) : pystr :=
  match c with
  | NotAPackage =>
    "❌ " ++ filename ++ " is not a valid .docx (possibly corrupted)."
  | WrongSchema sample =>
    "❌ " ++ filename ++ " is an OOXML container but not a Word document."
      ++ nl ++ "Contains: " ++ repr_list sample ++ "..."
  | OtherReadError e => "❌ Could not read " ++ filename ++ ": " ++ e
  end.

(** The wording by [server.py]: it has one message for a foreign archive
    and the generic failure, with the parse message [e], for the rest. *)
Definition server_report (e : pystr) (c : classification) : pystr :=
  match c with
  | WrongSchema sample =>
    "❌ Not a Word file. Contains: " ++ repr_list sample ++ "..."
  | NotAPackage | OtherReadError _ => "❌ Failed to read Word doc: " ++ e
  end.

(** A reader classifies in three tiers when its response is a wording
    [report] of the specified class: fixed per file name for a file that is
    no archive, with the sample for a foreign archive, with the parse
    message otherwise. *)
Definition three_tier (reader : pystr -> M pystr)
    (report : pystr -> classification -> pystr) : Prop :=
  forall w filename f e,
    disk w !! path_str (resolve filename Word) = Some f ->
    as_docx f = Raised e ->
    fst (reader filename w)
    = Ok (report filename (spec_diagnose (as_zip f) (manifest Word) e)).

(** A slide carries a description when its title placeholder and its
    placeholder 1 hold the described texts. *)
Definition describes (s : gmap pystr pystr) (sl : slide) : Prop :=
  (exists j, sl !! j = Some {| ph_idx := Some 0%nat;
                               text := Some (Server.get s "title") |}) /\
  (exists j, sl !! j = Some {| ph_idx := Some 1%nat;
                               text := Some (Server.get s "content") |}).

(** The two texts of a slide description, [s.get("title", "")] and
    [s.get("content", "")], written out. *)
Definition texts_of (s : gmap pystr pystr) : pystr * pystr :=
  (default [] (s !! "title"), default [] (s !! "content")).


(** The slide with the two placeholders of the default template that holds
    a pair of texts, and what a read gives for slide [i] (from 0) with two
    texts and for slides that hold such pairs, written out. *)
Definition pair_slide (tc : pystr * pystr) : slide :=
  title_slide (fst tc) (snd tc).

Definition slide_lines (i : nat) (title content : pystr) : pystr :=
  "Slide " ++ str_of_nat (S i) ++ ":" ++ nl ++ title ++ nl ++ content.

Definition deck_lines (l : list (pystr * pystr)) : pystr :=
  join (nl ++ nl) (imap (fun i tc => slide_lines i (fst tc) (snd tc)) l).


(** Content a creation stores as it is: [kept] by the codec and, for a
    Word document, not blank; the only cell of a spreadsheet empty or a
    literal text.  And what a read then returns. *)
Definition storable (fmt : format) (content : pystr) : bool :=
  match fmt with
  | Word => kept content && truthy (strip content)
  | Spreadsheet => negb (truthy content) || Xlsx.literal_text content
  | Presentation => kept content
  end.

Definition read_back (fmt : format) (content : pystr) : pystr :=
  match fmt with
  | Word => content
  | Spreadsheet => py_or content "(empty sheet)"
  | Presentation => "Slide 1:" ++ nl ++ "New Presentation" ++ nl ++ content
  end.

(** A world with one file. *)
Definition world_with (k : pystr) (f : file) : world :=
  {| disk := {[ k := f ]}; denied := ∅; unstatable := ∅; cut := ∅ |}.

Definition empty_world : world :=
  {| disk := ∅; denied := ∅; unstatable := ∅; cut := ∅ |}.

(** A name of 300 letters, and the empty file system as Linux presents it
    for the path of that name. *)
Definition overlong : pystr := replicate 300 97.

Definition overlong_world : world :=
  {| disk := ∅; denied := ∅;
     unstatable := {[ path_str (resolve overlong Word)
                      := Os.enametoolong (resolve overlong Word) ]};
     cut := ∅ |}.

(** Sample files for the examples: a regular file that is no archive, a
    directory, and an archive whose main Word part does not parse; each
    with the message python-docx raises on it. *)
Definition junk_file (p : Path) : file :=
  {| as_docx := Raised (package_not_found p);
     as_xlsx := Raised "File is not a zip file";
     as_pptx := Raised (package_not_found p);
     as_zip := Raised "File is not a zip file" |}.

Definition folder_file (p : Path) : file :=
  let e := "[Errno 21] Is a directory: " ++ repr (path_str p) in
  {| as_docx := Raised ("[Errno 2] No such file or directory: "
                          ++ repr (path_str p ++ "/[Content_Types].xml"));
     as_xlsx := Raised e;
     as_pptx := Raised e;
     as_zip := Raised e |}.

Definition damaged_word_file : file :=
  {| as_docx := Raised "Document is empty, line 1, column 1";
     as_xlsx := Raised not_workbook;
     as_pptx := Raised "Document is empty, line 1, column 1";
     as_zip := Ok Docx.entries |}.

(** Sample worlds for the examples: one Word document [memo] with two
    paragraphs, one workbook [book] with two rows, one presentation [deck]
    with its title slide, and an empty Word document. *)
Definition memo_doc : document := {| paragraphs := ["x"; "y"] |}.
Definition memo_file : file := Docx.package (resolve "memo" Word) memo_doc.
Definition memo_world : world :=
  world_with (path_str (resolve "memo" Word)) memo_file.

Definition book_wb : workbook :=
  {| sheets := [{| title := "Sheet1"; rows := [[Some "x"]; [Some "y"]] |}];
     active_index := 0 |}.
Definition book_file : file :=
  Xlsx.package (resolve "book" Spreadsheet) book_wb.
Definition book_world : world :=
  world_with (path_str (resolve "book" Spreadsheet)) book_file.

Definition deck_prs : presentation :=
  {| slide_layouts := Pptx.default_layouts;
     slides := [title_slide "New Presentation" "x"] |}.
Definition deck_file : file :=
  Pptx.package (resolve "deck" Presentation) deck_prs.
Definition deck_world : world :=
  world_with (path_str (resolve "deck" Presentation)) deck_file.



Definition damaged_world : world :=
  world_with (path_str (resolve "memo" Word)) damaged_word_file.

Definition junk_world : world :=
  world_with (path_str (resolve "memo" Word)) (junk_file (resolve "memo" Word)).
Definition folder_world : world :=
  world_with (path_str (resolve "memo" Word))
             (folder_file (resolve "memo" Word)).

Definition hello_world : world :=
  world_with (path_str (resolve "memo" Word))
             (Docx.package (resolve "memo" Word) {| paragraphs := ["Hello"] |}).

(** Packages stored under the name of another format: a Word package as
    [book.xlsx] and as [deck.pptx], a workbook as [memo.docx]. *)
Definition misfiled_book : file :=
  Docx.package (resolve "book" Spreadsheet) {| paragraphs := ["Hello"] |}.
Definition misfiled_deck : file :=
  Docx.package (resolve "deck" Presentation) {| paragraphs := ["Hello"] |}.
Definition misfiled_memo : file :=
  Xlsx.package (resolve "memo" Word) Xlsx.Workbook_new.

(** ** Vocabulary of the further properties *)

(** The tool of [server.py] that has the name of a tool of the variant. *)
Definition server_of (c : copy_tool) : tool :=
  match c with
  | copy_create f x => create_word f x
  | copy_read f => read_word f
  | copy_update f cs => update_word f cs
  | copy_delete f => delete_word f
  end.

(** The format and the file name of a call. *)
Definition format_of (t : tool) : format :=
  match t with
  | create_word _ _ | read_word _ | update_word _ _ | delete_word _ => Word
  | create_spreadsheet _ _ _ | read_spreadsheet _ _
  | update_spreadsheet _ _ _ | delete_spreadsheet _ => Spreadsheet
  | create_presentation _ _ _ | read_presentation _
  | update_presentation _ _ | delete_presentation _ => Presentation
  end.

Definition filename_of (t : tool) : pystr :=
  match t with
  | create_word f _ | read_word f | update_word f _ | delete_word f
  | create_spreadsheet f _ _ | read_spreadsheet f _
  | update_spreadsheet f _ _ | delete_spreadsheet f
  | create_presentation f _ _ | read_presentation f
  | update_presentation f _ | delete_presentation f => f
  end.


Definition update_failed (fmt : format) (e : pystr) : pystr :=
  match fmt with
  | Word => "❌ Failed to update Word doc: " ++ e
  | Spreadsheet => "❌ Failed to update Excel: " ++ e
  | Presentation => "❌ Failed to update PowerPoint: " ++ e
  end.


(** Rows that all have [n] cells. *)
Definition rectangular {A} (n : nat) (rs : list (list A)) : Prop :=
  Forall (fun r => length r = n) rs.

(** The rows a sheet holds after [data] is appended to an empty sheet. *)
Definition cells_of (data : list (list pystr)) : list (list cell) :=
  fmap (M:=list) Some <$> data.

(** Payloads the codecs store as they are given: rows that have a cell and
    hold literal texts, paragraphs and slide descriptions of [kept] texts. *)
Definition plain_rows (data : list (list pystr)) : bool :=
  forallb (fun r => negb (bool_decide (r = []))
                    && forallb Xlsx.literal_text r) data.

Definition kept_all (texts : list pystr) : bool := forallb kept texts.

Definition kept_slides (payload : list (gmap pystr pystr)) : bool :=
  forallb (fun s => kept (fst (texts_of s)) && kept (snd (texts_of s)))
          payload.

(** The last component of the text of a path, and a file name without a
    separator: it names a document directly in the documents directory. *)
Definition basename (k : pystr) : pystr := default [] (last (split sep k)).

Definition plain_name (name : pystr) : bool := negb (has_char sep name).




(** A line without line boundary. *)
Definition plain_line (l : pystr) : Prop :=
  forallb (fun c => negb (is_linebreak c)) l = true.

(** Samples for the further properties: a text view under which every
    file reads as two lines, a text file, file systems on which writing the
    Word document [memo] is denied, packages stored under the name of
    another format, and a file system with a document and a workbook. *)
Definition two_lines (f : file) : outcome pystr := Ok ("alpha" ++ nl ++ "beta").

Definition notes_world : world := world_with "notes.txt" memo_file.




Definition misfiled_book_world : world :=
  world_with (path_str (resolve "book" Spreadsheet)) misfiled_book.
Definition misfiled_deck_world : world :=
  world_with (path_str (resolve "deck" Presentation)) misfiled_deck.

Definition office_world : world :=
  {| disk := {[ path_str (resolve "memo" Word) := memo_file;
                path_str (resolve "book" Spreadsheet) := book_file ]};
     denied := ∅; unstatable := ∅; cut := ∅ |}.

(** * Properties *)

(** ** Text *)



Lemma startswith_cons_ne (c d : N) (s p : pystr) :
  c <> d -> startswith (d :: s) (c :: p) = false.
Proof. intros Hne. cbn. apply N.eqb_neq in Hne. now rewrite Hne. Qed.

(** ** The guards of the tools *)

Lemma stat_present (w : world) (p : Path) :
  present w p -> Os.stat_error w p = None.
Proof. intros [f Hf]. unfold Os.stat_error. now rewrite Hf. Qed.

Lemma stat_absent (w : world) (p : Path) :
  absent w p -> Os.stat_error w p = unstatable w !! path_str p.
Proof. intros H. unfold Os.stat_error. unfold absent in H. now rewrite H. Qed.

Lemma writable_parts (w : world) (p : Path) :
  writable w p ->
  Os.stat_error w p = None /\ denied w !! path_str p = None
  /\ cut w !! path_str p = None.
Proof.
  unfold writable, hindrance.
  destruct (Os.stat_error w p); [discriminate|].
  destruct (denied w !! path_str p); [discriminate|].
  destruct (cut w !! path_str p); [discriminate|]. auto.
Qed.

Lemma writable_stat (w : world) (p : Path) :
  writable w p -> Os.stat_error w p = None.
Proof. intros H. now destruct (writable_parts _ _ H) as (Hs & _). Qed.

Lemma exists_present (p : Path) {A} (k : bool -> M A) (w : world) :
  present w p -> bind (Os.exists_ p) k w = k true w.
Proof.
  intros H. unfold bind, Os.exists_. rewrite (stat_present _ _ H).
  now rewrite (bool_decide_eq_true_2 _ H).
Qed.

Lemma exists_absent (p : Path) {A} (k : bool -> M A) (w : world) :
  absent w p -> Os.stat_error w p = None ->
  bind (Os.exists_ p) k w = k false w.
Proof.
  intros H Hs. unfold bind, Os.exists_. rewrite Hs.
  rewrite bool_decide_eq_false_2; [reflexivity|].
  unfold absent in H. rewrite H. intros [x Hx]. discriminate.
Qed.

Lemma exists_raises (p : Path) {A} (k : bool -> M A) (w : world) (e : pystr) :
  Os.stat_error w p = Some e -> bind (Os.exists_ p) k w = (Raised e, w).
Proof. intros Hs. unfold bind, Os.exists_. now rewrite Hs. Qed.

Lemma stat_some_absent (w : world) (p : Path) (e : pystr) :
  Os.stat_error w p = Some e -> absent w p.
Proof.
  unfold Os.stat_error, absent. now destruct (disk w !! path_str p).
Qed.

Lemma present_or_absent (w : world) (p : Path) : present w p \/ absent w p.
Proof.
  unfold present, absent. destruct (disk w !! path_str p); eauto.
Qed.

Lemma present_not_absent (w : world) (p : Path) :
  present w p -> absent w p -> False.
Proof. unfold present, absent. intros [x Hx] H. congruence. Qed.

Ltac enter_tool :=
  unfold invoke, copy_invoke, create, read, delete_,
    Server.create_docx, Server.read_docx, Server.update_docx,
    Server.delete_docx, Server.create_xlsx, Server.read_xlsx,
    Server.update_xlsx, Server.delete_xlsx, Server.create_pptx,
    Server.read_pptx, Server.update_pptx, Server.delete_pptx,
    Copy.create_docx, Copy.read_docx, Copy.update_docx, Copy.delete_docx;
  cbv zeta.

(** Names the path of the call, so that no step looks inside it. *)
Ltac name_path :=
  unfold target, resolve, suffix, Copy.get_doc_path,
    already_exists, not_found, created, deleted in *;
  repeat match goal with
         | |- context [Server.get_path ?f ?e] =>
           let p := fresh "p" in
           set (p := Server.get_path f e) in *; clearbody p
         | |- context [joinpath Copy.DOCS_DIR ?f] =>
           let p := fresh "p" in
           set (p := joinpath Copy.DOCS_DIR f) in *; clearbody p
         end.

Lemma copy_path (filename : pystr) :
  Copy.get_doc_path filename = resolve filename Word.
Proof. reflexivity. Qed.

(** Every creating tool answers [AlreadyExists] on a present path and
    leaves the world as it is. *)
Lemma create_present (t : tool) (w : world) :
  is_create t = true -> present w (target t) ->
  invoke t w = (Ok (already_exists (target t)), w).
Proof.
  intros Hc H. destruct t; try discriminate Hc; enter_tool; name_path;
    rewrite (exists_present _ _ _ H); reflexivity.
Qed.

(** Every other tool answers [NotFound] on an absent path and leaves the
    world as it is. *)
Lemma other_absent (t : tool) (w : world) :
  is_create t = false -> absent w (target t) ->
  Os.stat_error w (target t) = None ->
  invoke t w = (Ok (not_found (target t)), w).
Proof.
  intros Hc H Hs. destruct t; try discriminate Hc; enter_tool; name_path;
    rewrite (exists_absent _ _ _ H Hs); reflexivity.
Qed.

(** The existence check is made before every [try] block: what it raises
    leaves the call. *)
Lemma guard_raises (t : tool) (w : world) (e : pystr) :
  Os.stat_error w (target t) = Some e -> invoke t w = (Raised e, w).
Proof.
  intros Hs. destruct t; enter_tool; name_path;
    rewrite (exists_raises _ _ _ _ Hs); reflexivity.
Qed.

Lemma copy_guard_raises (c : copy_tool) (w : world) (e : pystr) :
  Os.stat_error w (target (server_of c)) = Some e ->
  copy_invoke c w = (Raised e, w).
Proof.
  intros Hs. destruct c; cbn [server_of] in Hs; enter_tool;
    change (Copy.get_doc_path filename)
      with (Server.get_path filename ".docx");
    name_path; rewrite (exists_raises _ _ _ _ Hs); reflexivity.
Qed.

(** Closed goals: every conjunct is settled by evaluation. *)
Ltac by_computing :=
  repeat match goal with |- _ /\ _ => split end; vm_compute; reflexivity.

(** Goals whose sides differ by the wording definitions only. *)
Ltac same :=
  unfold word_text, sheet_text, deck_text, server_report, copy_report,
    already_exists, not_found, created, deleted, empty_marker;
  reflexivity.

(** ** Steps of the monad *)

Lemma bind_lift_ok {A B} (a : A) (k : A -> M B) (w : world) :
  bind (lift (Ok a)) k w = k a w.
Proof. reflexivity. Qed.

Lemma bind_lift_raised {A B} (e : pystr) (k : A -> M B) (w : world) :
  bind (lift (Raised e : outcome A)) k w = (Raised e, w).
Proof. reflexivity. Qed.

Lemma try_ok {A} (body : M A) (h : pystr -> M A) (w w' : world) (a : A) :
  body w = (Ok a, w') -> try_except body h w = (Ok a, w').
Proof. intros H. unfold try_except. now rewrite H. Qed.

Lemma try_raised {A} (body : M A) (h : pystr -> M A) (w w' : world) e :
  body w = (Raised e, w') -> try_except body h w = h e w'.
Proof. intros H. unfold try_except. now rewrite H. Qed.

(** ** Library calls on a known world *)

Lemma read_view {A} (view : file -> outcome A) (missing : pystr) (p : Path)
    (w : world) (f : file) :
  disk w !! path_str p = Some f -> Os.read view missing p w = (view f, w).
Proof. intros H. unfold Os.read. now rewrite H. Qed.

Lemma bind_read {A B} (view : file -> outcome A) (missing : pystr)
    (p : Path) (k : A -> M B) (w : world) (f : file) (a : A) :
  disk w !! path_str p = Some f -> view f = Ok a ->
  bind (Os.read view missing p) k w = k a w.
Proof. intros H E. unfold bind. rewrite (read_view _ _ _ _ _ H), E. reflexivity. Qed.

Lemma bind_read_raised {A B} (view : file -> outcome A) (missing : pystr)
    (p : Path) (k : A -> M B) (w : world) (f : file) (e : pystr) :
  disk w !! path_str p = Some f -> view f = Raised e ->
  bind (Os.read view missing p) k w = (Raised e, w).
Proof. intros H E. unfold bind. rewrite (read_view _ _ _ _ _ H), E. reflexivity. Qed.

Lemma bind_write {B} (p : Path) (f : file) (k : unit -> M B) (w : world) :
  writable w p -> bind (Os.write p f) k w = k tt (Os.put p f w).
Proof.
  intros H. unfold bind, Os.write. rewrite (writable_stat _ _ H).
  destruct (writable_parts _ _ H) as (_ & Hd & Hc). now rewrite Hd, Hc.
Qed.

Lemma bind_write_denied {B} (p : Path) (f : file) (k : unit -> M B)
    (w : world) (e : pystr) :
  Os.stat_error w p = None -> denied w !! path_str p = Some e ->
  bind (Os.write p f) k w = (Raised e, w).
Proof. intros Hs H. unfold bind, Os.write. now rewrite Hs, H. Qed.

Lemma bind_remove {B} (p : Path) (k : unit -> M B) (w : world) :
  present w p -> denied w !! path_str p = None ->
  bind (Os.remove p) k w = k tt (Os.drop p w).
Proof.
  intros [f Hf] H. unfold bind, Os.remove. now rewrite H, Hf.
Qed.

Lemma lookup_put (p : Path) (f : file) (w : world) :
  disk (Os.put p f w) !! path_str p = Some f.
Proof. unfold Os.put; cbn. apply lookup_insert_eq. Qed.

Lemma present_put (p : Path) (f : file) (w : world) :
  present (Os.put p f w) p.
Proof. unfold present. rewrite lookup_put. eauto. Qed.

Lemma absent_drop (p : Path) (w : world) : absent (Os.drop p w) p.
Proof. unfold absent, Os.drop; cbn. apply lookup_delete_eq. Qed.

(** ** The codecs in memory *)

Lemma fold_add_paragraph (changes : list pystr) (doc : document) :
  fold_left Docx.add_paragraph changes doc
  = {| paragraphs := paragraphs doc ++ changes |}.
Proof.
  revert doc. induction changes as [|c cs IH]; intros doc; cbn.
  - rewrite app_nil_r. now destruct doc.
  - rewrite IH. cbn. now rewrite <- app_assoc.
Qed.

(** Rows appended to sheet [i] of a workbook. *)
Lemma ofold_append (data : list (list pystr)) (wb : workbook) (i : nat) :
  ofold (fun wb r => Xlsx.append wb (Some i) r) wb data
  = Ok {| sheets := alter (fun s => {| title := title s;
                                      rows := rows s ++ (fmap (M:=list) Some <$> data) |})
                          i (sheets wb);
          active_index := active_index wb |}.
Proof.
  revert wb. induction data as [|r rs IH]; intros wb; cbn.
  - f_equal. destruct wb as [shs a]; cbn. f_equal.
    symmetry. apply list_alter_id. intros [t rws]; cbn. now rewrite app_nil_r.
  - rewrite IH. cbn. f_equal. f_equal.
    rewrite list_alter_alter_eq. apply list_alter_ext; [|reflexivity].
    intros [t rws] _; cbn. now rewrite <- app_assoc.
Qed.

(** ** Creation on a fresh, writable path *)

Lemma create_fresh (fmt : format) (w : world) (name content : pystr) :
  absent w (resolve name fmt) -> writable w (resolve name fmt) ->
  create fmt name content w
  = (Ok (created fmt (resolve name fmt)),
     Os.put (resolve name fmt) (initial fmt (resolve name fmt) content) w).
Proof.
  intros Ha Hw.
  destruct fmt; enter_tool; name_path;
    rewrite (exists_absent _ _ _ Ha (writable_stat _ _ Hw)); apply try_ok.
  - unfold Docx.save. rewrite (bind_write _ _ _ _ Hw). reflexivity.
  - replace (Xlsx.set_title _ _ _)
      with (Ok {| sheets := [{| title := "Sheet1"; rows := [] |}];
                  active_index := 0 |}) by reflexivity.
    rewrite bind_lift_ok.
    replace (Xlsx.active Xlsx.Workbook_new) with (Some 0%nat) by reflexivity.
    rewrite ofold_append, bind_lift_ok. unfold Xlsx.save.
    rewrite (bind_write _ _ _ _ Hw). reflexivity.
  - replace (Pptx.layout_at _ _) with (Ok [0; 1]%nat : outcome layout)
      by reflexivity.
    rewrite bind_lift_ok. unfold Pptx.add_slide. cbv beta iota.
    replace (Pptx.set_title_text _ _ _)
      with (Ok {| slide_layouts := Pptx.default_layouts;
                  slides := [title_slide "New Presentation" []] |})
      by reflexivity.
    rewrite bind_lift_ok.
    replace (Pptx.set_placeholder_text _ _ _ _)
      with (Ok {| slide_layouts := Pptx.default_layouts;
                  slides := [title_slide "New Presentation" content] |})
      by reflexivity.
    rewrite bind_lift_ok. unfold Pptx.save.
    rewrite (bind_write _ _ _ _ Hw). reflexivity.
Qed.

(** ** Deleting *)

Lemma delete_present (fmt : format) (w : world) (name : pystr) :
  present w (resolve name fmt) ->
  denied w !! path_str (resolve name fmt) = None ->
  delete_ fmt name w
  = (Ok (deleted fmt (resolve name fmt)), Os.drop (resolve name fmt) w).
Proof.
  intros Hp Hw.
  destruct fmt; enter_tool; name_path; rewrite (exists_present _ _ _ Hp);
    apply try_ok; rewrite (bind_remove _ _ _ Hp Hw); reflexivity.
Qed.

Lemma delete_absent (fmt : format) (w : world) (name : pystr) :
  absent w (resolve name fmt) -> Os.stat_error w (resolve name fmt) = None ->
  delete_ fmt name w = (Ok (not_found (resolve name fmt)), w).
Proof.
  intros Ha Hs.
  destruct fmt; enter_tool; name_path; rewrite (exists_absent _ _ _ Ha Hs);
    reflexivity.
Qed.

Lemma delete_raises (fmt : format) (w : world) (name e : pystr) :
  Os.stat_error w (resolve name fmt) = Some e ->
  delete_ fmt name w = (Raised e, w).
Proof.
  intros Hs.
  destruct fmt; enter_tool; name_path; rewrite (exists_raises _ _ _ _ Hs);
    reflexivity.
Qed.

Lemma stat_drop (p : Path) (w : world) : Os.stat_error (Os.drop p w) p = None.
Proof.
  unfold Os.stat_error, Os.drop; cbn. rewrite lookup_delete_eq.
  apply lookup_delete_eq.
Qed.

(** A delete that answers with the deletion marker has unlinked the file. *)
Lemma delete_marked (fmt : format) (w w' : world) (name s : pystr) :
  delete_ fmt name w = (Ok s, w') -> startswith s bin_mark = true ->
  w' = Os.drop (resolve name fmt) w.
Proof.
  intros E Hs.
  destruct (present_or_absent w (resolve name fmt)) as [Hp|Ha].
  - revert E.
    destruct fmt; enter_tool; name_path; rewrite (exists_present _ _ _ Hp);
      unfold try_except, bind, Os.remove;
      cbv beta iota delta [negb];
      destruct Hp as [f Hf]; rewrite Hf;
      match goal with
      | |- context [denied w !! ?k] => destruct (denied w !! k)
      end;
      cbn -[path_str]; intros E; inversion E; subst; try reflexivity;
      vm_compute in Hs; discriminate Hs.
  - destruct (Os.stat_error w (resolve name fmt)) as [e|] eqn:He.
    + rewrite (delete_raises _ _ _ _ He) in E. discriminate E.
    + rewrite (delete_absent _ _ _ Ha He) in E. injection E as <- <-.
      unfold not_found in Hs. vm_compute in Hs. discriminate Hs.
Qed.

(** C4 — Creation answers [AlreadyExists] on a present path and writes
    nothing; read, update and delete answer [NotFound] on an absent path
    whenever the existence check returns; the check is made outside the
    [try] block of every tool, so where [stat] raises (the path is then
    absent) the error leaves the call and nothing changes; a delete that
    follows a successful delete answers [NotFound]. *)
Theorem lifecycle_guards (t : tool) (fmt : format) (name : pystr) (w : world) :
  (is_create t = true -> present w (target t) ->
   invoke t w = (Ok (already_exists (target t)), w)) /\
  (is_create t = false -> absent w (target t) ->
   Os.stat_error w (target t) = None ->
   invoke t w = (Ok (not_found (target t)), w)) /\
  (forall e, Os.stat_error w (target t) = Some e ->
             absent w (target t) /\ invoke t w = (Raised e, w)) /\
  (forall s w', delete_ fmt name w = (Ok s, w') ->
                startswith s bin_mark = true ->
                delete_ fmt name w' = (Ok (not_found (resolve name fmt)), w')).
Proof.
  split; [apply create_present|]. split; [apply other_absent|].
  split.
  - intros e He. split; [exact (stat_some_absent _ _ _ He)|].
    now apply guard_raises.
  - intros s w' E Hs. rewrite (delete_marked _ _ _ _ _ E Hs).
    apply delete_absent; [apply absent_drop|apply stat_drop].
Qed.

(** C4, as stated, fails: on a name of 300 letters, which Linux refuses to
    examine, no file exists and the read raises instead of answering
    [NotFound]. *)
Lemma overlong_name_raises :
  Os.too_long (resolve overlong Word) = true /\
  absent overlong_world (resolve overlong Word) /\
  invoke (read_word overlong) overlong_world
  = (Raised (Os.enametoolong (resolve overlong Word)), overlong_world) /\
  ~ (forall t w, is_create t = false -> absent w (target t) ->
                 invoke t w = (Ok (not_found (target t)), w)).
Proof.
  assert (absent overlong_world (resolve overlong Word)) as Ha
    by (vm_compute; reflexivity).
  assert (invoke (read_word overlong) overlong_world
          = (Raised (Os.enametoolong (resolve overlong Word)), overlong_world))
    as E by (apply guard_raises; vm_compute; reflexivity).
  split; [vm_compute; reflexivity|]. split; [exact Ha|]. split; [exact E|].
  intros H. specialize (H (read_word overlong) overlong_world eq_refl Ha).
  rewrite E in H. discriminate H.
Qed.

(** ** The resolver *)

Lemma resolve_unfold (name : pystr) (fmt : format) :
  resolve name fmt
  = joinpath Server.DOCS_DIR
      (if endswith name (suffix fmt) then name else name ++ suffix fmt).
Proof.
  unfold resolve, Server.get_path. cbv zeta.
  now destruct (endswith name (suffix fmt)).
Qed.





(** ** Components of a name *)

Lemma split_plain (c : N) (t : pystr) : c ∉ t -> split c t = [t].
Proof.
  induction t as [|d t IH]; intros H; [reflexivity|].
  apply not_elem_of_cons in H as [Hd Ht]. cbn.
  destruct (N.eqb_spec d c) as [->|_]; [now elim Hd|].
  now rewrite (IH Ht).
Qed.

Lemma split_cons_sep (c : N) (a b : pystr) :
  c ∉ a -> split c (a ++ c :: b) = a :: split c b.
Proof.
  induction a as [|d a IH]; intros H; cbn.
  - now rewrite N.eqb_refl.
  - apply not_elem_of_cons in H as [Hd Ha].
    destruct (N.eqb_spec d c) as [->|_]; [now elim Hd|].
    now rewrite (IH Ha).
Qed.

(** Text without separator appended to a name extends its last component. *)
Lemma split_app_plain (c : N) (s t : pystr) :
  c ∉ t ->
  exists segs lst, split c s = segs ++ [lst] /\
                   split c (s ++ t) = segs ++ [lst ++ t].
Proof.
  intros Ht. induction s as [|d s (segs & lst & E1 & E2)]; cbn.
  - exists [], []. split; [reflexivity|]. now rewrite split_plain.
  - destruct (d =? c).
    + exists ([] :: segs), lst. now rewrite E1, E2.
    + rewrite E1, E2. destruct segs as [|f fs]; cbn.
      * now exists [], (d :: lst).
      * now exists ((d :: f) :: fs), lst.
Qed.

Lemma collapse_plain (rooted : bool) (segs stack : list pystr) :
  ".." ∉ segs -> collapse rooted stack segs = rev stack ++ segs.
Proof.
  revert stack. induction segs as [|c segs IH]; intros stack H; cbn.
  - now rewrite app_nil_r.
  - apply not_elem_of_cons in H as [Hc Hs].
    rewrite bool_decide_eq_false_2 by (intros ->; now apply Hc).
    rewrite (IH _ Hs). cbn. now rewrite <- app_assoc.
Qed.

Lemma suffix_plain (fmt : format) : sep ∉ suffix fmt.
Proof.
  apply (bool_decide_eq_false_1 (sep ∈ suffix fmt)). now destruct fmt.
Qed.

Lemma suffixed_no_parent (name : pystr) (fmt : format) :
  ".." ∉ split sep name -> ".." ∉ split sep (name ++ suffix fmt).
Proof.
  intros H.
  destruct (split_app_plain sep name (suffix fmt) (suffix_plain fmt))
    as (segs & lst & E1 & E2).
  rewrite E1 in H. rewrite E2. intros Hin.
  apply elem_of_app in Hin as [Hin|Hin].
  - apply H, elem_of_app. now left.
  - apply list_elem_of_singleton in Hin.
    apply (f_equal length) in Hin. rewrite length_app in Hin.
    destruct fmt; change (2 = length lst + 5)%nat in Hin; lia.
Qed.

Lemma suffixed_relative (name : pystr) (fmt : format) :
  startswith name "/" = false ->
  startswith (name ++ suffix fmt) "/" = false.
Proof.
  destruct name as [|c name]; [now destruct fmt|]. exact id.
Qed.

(** The path of a relative name without parent components. *)
Lemma joinpath_relative (name : pystr) :
  startswith name "/" = false ->
  joinpath Server.DOCS_DIR name
  = {| root := [];
       parts := "documents" :: filter keep_part (split sep name) |}.
Proof.
  intros H. unfold joinpath, posix_join. rewrite H.
  replace (path_str Server.DOCS_DIR) with "documents" by reflexivity.
  replace (negb (truthy "documents") || endswith "documents" "/")
    with false by reflexivity.
  unfold parse_path.
  replace (splitroot ("documents" ++ "/" ++ name))
    with (@nil N, "documents" ++ "/" ++ name) by reflexivity.
  change ("/" ++ name) with (sep :: name).
  rewrite split_cons_sep; [reflexivity|].
  now apply (bool_decide_eq_false_1 (sep ∈ "documents")).
Qed.

Lemma confined (name : pystr) :
  startswith name "/" = false -> ".." ∉ split sep name ->
  lies_within Server.DOCS_DIR (joinpath Server.DOCS_DIR name).
Proof.
  intros Hrel Hpar. rewrite (joinpath_relative _ Hrel).
  split; [reflexivity|].
  change (normparts Server.DOCS_DIR) with ["documents"].
  unfold normparts. cbn [root parts truthy].
  rewrite collapse_plain.
  - exists (filter keep_part (split sep name)). reflexivity.
  - intros Hin. apply elem_of_cons in Hin as [Hin|Hin]; [discriminate Hin|].
    apply list_elem_of_filter in Hin as [_ Hin]. exact (Hpar Hin).
Qed.

(** C2 — A name that is relative and has no parent component resolves to a
    path within the documents directory, for every format and in both
    variants of the resolver. *)
Theorem resolver_confined (name : pystr) (fmt : format) :
  startswith name "/" = false ->
  ".." ∉ split sep name ->
  lies_within Server.DOCS_DIR (resolve name fmt) /\
  lies_within Copy.DOCS_DIR (Copy.get_doc_path name).
Proof.
  intros Hrel Hpar.
  assert (forall f, lies_within Server.DOCS_DIR (resolve name f)) as H.
  { intros f. rewrite resolve_unfold.
    destruct (endswith name (suffix f)).
    - now apply confined.
    - apply confined; [now apply suffixed_relative|now apply suffixed_no_parent]. }
  split; [apply H|]. rewrite copy_path. apply (H Word).
Qed.

(** C2, as stated, fails: a name with a parent component and an absolute
    name both resolve outside the documents directory. *)
Lemma resolver_escapes :
  resolve "../secret" Word
  = {| root := []; parts := ["documents"; ".."; "secret.docx"] |} /\
  ~ lies_within Server.DOCS_DIR (resolve "../secret" Word) /\
  resolve "/etc/passwd" Word
  = {| root := "/"; parts := ["etc"; "passwd.docx"] |} /\
  ~ lies_within Server.DOCS_DIR (resolve "/etc/passwd" Word) /\
  ~ (forall name fmt, lies_within Server.DOCS_DIR (resolve name fmt)).
Proof.
  assert (~ lies_within Server.DOCS_DIR (resolve "../secret" Word)) as H1.
  { apply (bool_decide_eq_false_1 _). vm_compute. reflexivity. }
  assert (~ lies_within Server.DOCS_DIR (resolve "/etc/passwd" Word)) as H2.
  { apply (bool_decide_eq_false_1 _). vm_compute. reflexivity. }
  repeat split; try assumption; try (vm_compute; reflexivity).
  intros H. exact (H1 (H _ _)).
Qed.

(** ** Diagnosis of a failed Word read *)

Ltac word_path :=
  repeat match goal with
         | |- context [Copy.get_doc_path ?f] =>
           change (Copy.get_doc_path f) with (Server.get_path f ".docx")
         end.

Lemma copy_read_failure (w : world) (filename : pystr) (f : file) (e : pystr) :
  disk w !! path_str (resolve filename Word) = Some f ->
  as_docx f = Raised e ->
  Copy.read_docx filename w
  = (Ok (copy_report filename (spec_diagnose (as_zip f) (manifest Word) e)), w).
Proof.
  intros Hf He. enter_tool; word_path; name_path.
  rewrite (exists_present _ _ _ (ex_intro _ f Hf)). cbv beta iota delta [negb].
  erewrite try_raised;
    [|unfold Docx.Document; apply (bind_read_raised _ _ _ _ _ _ _ Hf He)].
  unfold Zip.namelist, spec_diagnose. destruct (as_zip f) as [names|z] eqn:Hz.
  - apply try_ok. rewrite (bind_read _ _ _ _ _ _ _ Hf Hz).
    unfold manifest. destruct (py_in _ names); unfold copy_report;
      reflexivity.
  - erewrite try_raised; [unfold copy_report; reflexivity|].
    apply (bind_read_raised _ _ _ _ _ _ _ Hf Hz).
Qed.

Lemma server_read_failure (w : world) (filename : pystr) (f : file) (e : pystr) :
  disk w !! path_str (resolve filename Word) = Some f ->
  as_docx f = Raised e ->
  Server.read_docx filename w
  = (Ok (server_report e (spec_diagnose (as_zip f) (manifest Word) e)), w).
Proof.
  intros Hf He. enter_tool; name_path.
  rewrite (exists_present _ _ _ (ex_intro _ f Hf)). cbv beta iota delta [negb].
  erewrite try_raised;
    [|unfold Docx.Document; apply (bind_read_raised _ _ _ _ _ _ _ Hf He)].
  unfold Zip.namelist, spec_diagnose. destruct (as_zip f) as [names|z] eqn:Hz.
  - unfold manifest. destruct (py_in _ names) eqn:Hin;
      unfold bind at 1;
      (erewrite try_ok;
       [|rewrite (bind_read _ _ _ _ _ _ _ Hf Hz), Hin; reflexivity]);
      unfold server_report; reflexivity.
  - unfold bind at 1. erewrite try_raised;
      [unfold server_report; reflexivity
      |apply (bind_read_raised _ _ _ _ _ _ _ Hf Hz)].
Qed.

Lemma sample_bounded (zip : outcome (list pystr)) (expected e : pystr)
    (sample : list pystr) :
  spec_diagnose zip expected e = WrongSchema sample ->
  (length sample <= 10)%nat /\
  exists names, zip = Ok names /\ sample = take 10 names /\ expected ∉ names.
Proof.
  unfold spec_diagnose. destruct zip as [names|z]; [|discriminate].
  unfold py_in. case_bool_decide as Hin; [discriminate|].
  intros [= <-]. split; [rewrite length_take; lia|]. now exists names.
Qed.

(** C1 — A Word read whose parse raises is answered, in the Word-only
    variant, with the wording of the class the three-tier diagnosis gives;
    [server.py] answers a foreign archive the same way and every other
    failure, a file that is no archive included, with the generic failure
    and the parse message.  A sample has at most ten names. *)
Theorem word_read_failure_classified (w : world) (filename : pystr)
    (f : file) (e : pystr) :
  disk w !! path_str (resolve filename Word) = Some f ->
  as_docx f = Raised e ->
  let c := spec_diagnose (as_zip f) (manifest Word) e in
  Copy.read_docx filename w = (Ok (copy_report filename c), w) /\
  Server.read_docx filename w = (Ok (server_report e c), w) /\
  (forall sample, c = WrongSchema sample ->
     (length sample <= 10)%nat /\
     exists names, as_zip f = Ok names /\ sample = take 10 names /\
                   manifest Word ∉ names) /\
  (forall z, as_zip f = Raised z ->
     c = NotAPackage /\
     server_report e c = "❌ Failed to read Word doc: " ++ e) /\
  (forall names, as_zip f = Ok names -> manifest Word ∈ names ->
     c = OtherReadError e).
Proof.
  intros Hf He c. split; [now apply copy_read_failure|].
  split; [now apply server_read_failure|].
  split; [intros sample; apply sample_bounded|]. subst c. split.
  - intros z Hz. rewrite Hz. split; reflexivity.
  - intros names -> Hin. unfold spec_diagnose, py_in.
    now rewrite bool_decide_eq_true_2.
Qed.

(** The Word-only variant classifies in three tiers. *)
Lemma copy_three_tier : three_tier Copy.read_docx copy_report.
Proof.
  intros w filename f e Hf He. now rewrite (copy_read_failure _ _ _ _ Hf He).
Qed.

(** C1, as stated, fails for [server.py]: its answer to a file that is no
    archive is the generic failure with the parse message, the answer the
    Word-only variant words as possibly corrupted; it varies with the parse
    message, so it is no wording of the one class [NotAPackage]. *)
Lemma server_read_not_three_tier :
  spec_diagnose (as_zip (junk_file (resolve "memo" Word))) (manifest Word)
                (package_not_found (resolve "memo" Word))
  = NotAPackage /\
  fst (Server.read_docx "memo" junk_world)
  = Ok "❌ Failed to read Word doc: Package not found at 'documents/memo.docx'" /\
  fst (Copy.read_docx "memo" junk_world)
  = Ok "❌ memo is not a valid .docx (possibly corrupted)." /\
  ~ exists report, three_tier Server.read_docx report.
Proof.
  split; [reflexivity|]. split; [vm_compute; reflexivity|].
  split; [vm_compute; reflexivity|]. intros [report H].
  assert (forall f, disk (world_with (path_str (resolve "memo" Word)) f)
                    !! path_str (resolve "memo" Word) = Some f)
    as Hl by (intros f; apply lookup_singleton_eq).
  pose proof (H junk_world "memo" (junk_file (resolve "memo" Word)) _
                (Hl _) eq_refl) as H1.
  pose proof (H folder_world "memo" (folder_file (resolve "memo" Word)) _
                (Hl _) eq_refl) as H2.
  cbn [spec_diagnose junk_file folder_file as_zip] in H1, H2.
  rewrite <- H1 in H2. vm_compute in H2. discriminate H2.
Qed.

(** The other two reads answer a parse failure with the generic failure,
    whatever the file is as an archive. *)
Lemma read_xlsx_failure (w : world) (filename : pystr)
    (sheet_name : option pystr) (f : file) (e : pystr) :
  disk w !! path_str (resolve filename Spreadsheet) = Some f ->
  as_xlsx f = Raised e ->
  Server.read_xlsx filename sheet_name w
  = (Ok ("❌ Failed to read Excel: " ++ e), w).
Proof.
  intros Hf He. enter_tool; name_path.
  rewrite (exists_present _ _ _ (ex_intro _ f Hf)). cbv beta iota delta [negb].
  erewrite try_raised; [reflexivity|].
  unfold Xlsx.load_workbook. apply (bind_read_raised _ _ _ _ _ _ _ Hf He).
Qed.

Lemma read_pptx_failure (w : world) (filename : pystr) (f : file) (e : pystr) :
  disk w !! path_str (resolve filename Presentation) = Some f ->
  as_pptx f = Raised e ->
  Server.read_pptx filename w
  = (Ok ("❌ Failed to read PowerPoint: " ++ e), w).
Proof.
  intros Hf He. enter_tool; name_path.
  rewrite (exists_present _ _ _ (ex_intro _ f Hf)). cbv beta iota delta [negb].
  erewrite try_raised; [reflexivity|].
  unfold Pptx.Presentation. apply (bind_read_raised _ _ _ _ _ _ _ Hf He).
Qed.

(** C6 — [read_xlsx] and [read_pptx] answer a parse failure with the
    generic failure and never open the file as an archive: a Word package
    stored under a spreadsheet or presentation name is not diagnosed as a
    foreign archive, while [read_docx] diagnoses the mirror case. *)
Theorem spreadsheet_and_slides_skip_diagnosis :
  fst (Server.read_xlsx "book" None
         (world_with (path_str (resolve "book" Spreadsheet)) misfiled_book))
  = Ok "❌ Failed to read Excel: File contains no valid workbook part" /\
  spec_diagnose (as_zip misfiled_book) (manifest Spreadsheet) not_workbook
  = WrongSchema Docx.entries /\
  fst (Server.read_pptx "deck"
         (world_with (path_str (resolve "deck" Presentation)) misfiled_deck))
  = Ok ("❌ Failed to read PowerPoint: "
          ++ not_powerpoint (resolve "deck" Presentation) ct_word) /\
  spec_diagnose (as_zip misfiled_deck) (manifest Presentation)
                (not_powerpoint (resolve "deck" Presentation) ct_word)
  = WrongSchema Docx.entries /\
  fst (Server.read_docx "memo"
         (world_with (path_str (resolve "memo" Word)) misfiled_memo))
  = Ok ("❌ Not a Word file. Contains: " ++ repr_list Xlsx.entries ++ "...").
Proof. by_computing. Qed.

(** ** Reading a file that parses *)

Lemma read_docx_ok (w : world) (filename : pystr) (f : file) (doc : document) :
  disk w !! path_str (resolve filename Word) = Some f ->
  as_docx f = Ok doc ->
  Server.read_docx filename w = (Ok (word_text doc), w).
Proof.
  intros Hf Hd. enter_tool; name_path.
  rewrite (exists_present _ _ _ (ex_intro _ f Hf)). cbv beta iota delta [negb].
  apply try_ok. unfold Docx.Document.
  rewrite (bind_read _ _ _ _ _ _ _ Hf Hd). same.
Qed.

Lemma read_pptx_ok (w : world) (filename : pystr) (f : file)
    (prs : presentation) :
  disk w !! path_str (resolve filename Presentation) = Some f ->
  as_pptx f = Ok prs ->
  Server.read_pptx filename w = (Ok (deck_text (slides prs)), w).
Proof.
  intros Hf Hd. enter_tool; name_path.
  rewrite (exists_present _ _ _ (ex_intro _ f Hf)). cbv beta iota delta [negb].
  apply try_ok. unfold Pptx.Presentation.
  rewrite (bind_read _ _ _ _ _ _ _ Hf Hd). same.
Qed.

Lemma find_index_Some {A} (g : A -> bool) (l : list A) (i : nat) :
  Xlsx.find_index g l = Some i -> exists x, l !! i = Some x /\ g x = true.
Proof.
  revert i. induction l as [|x l IH]; intros i; cbn; [discriminate|].
  destruct (g x) eqn:Hx.
  - intros [= <-]. now exists x.
  - destruct (Xlsx.find_index g l) as [j|]; [|discriminate].
    intros [= <-]. apply (IH j eq_refl).
Qed.

Lemma find_index_alter {A} (g : A -> bool) (h : A -> A) (l : list A) (k : nat) :
  (forall x, g (h x) = g x) ->
  Xlsx.find_index g (alter h k l) = Xlsx.find_index g l.
Proof.
  intros Hg. revert k. induction l as [|x l IH]; intros [|k]; cbn;
    rewrite ?Hg, ?IH; reflexivity.
Qed.

Lemma find_index_elem {A} (g : A -> bool) (l : list A) (x : A) :
  x ∈ l -> g x = true -> is_Some (Xlsx.find_index g l).
Proof.
  induction 1 as [x l|x y l _ IH]; intros Hx; cbn.
  - rewrite Hx. eauto.
  - destruct (g y); [eauto|]. destruct (IH Hx) as [j ->]. eauto.
Qed.


Lemma read_xlsx_active (w : world) (filename : pystr) (f : file)
    (wb : workbook) (sh : worksheet) :
  disk w !! path_str (resolve filename Spreadsheet) = Some f ->
  as_xlsx f = Ok wb ->
  sheets wb !! active_index wb = Some sh ->
  Server.read_xlsx filename None w = (Ok (sheet_text (rows sh)), w).
Proof.
  intros Hf Hd Hs. enter_tool; name_path.
  rewrite (exists_present _ _ _ (ex_intro _ f Hf)). cbv beta iota delta [negb].
  apply try_ok. unfold Xlsx.load_workbook.
  rewrite (bind_read _ _ _ _ _ _ _ Hf Hd), bind_lift_ok.
  unfold Xlsx.active. rewrite bool_decide_eq_true_2
    by (apply lookup_lt_Some in Hs; exact Hs).
  unfold Xlsx.iter_rows, Xlsx.deref, obind. rewrite Hs, bind_lift_ok.
  same.
Qed.

(** ** Appending to a document *)

Lemma update_docx_ok (w : world) (filename : pystr) (changes : list pystr)
    (f : file) (doc : document) :
  disk w !! path_str (resolve filename Word) = Some f ->
  as_docx f = Ok doc ->
  writable w (resolve filename Word) ->
  Server.update_docx filename changes w
  = (Ok ("✅ Updated Word doc " ++ filename ++ " with "
           ++ str_of_nat (length changes) ++ " changes."),
     Os.put (resolve filename Word)
       (Docx.package (resolve filename Word)
          {| paragraphs := paragraphs doc ++ changes |}) w).
Proof.
  intros Hf Hd Hw. enter_tool; name_path.
  rewrite (exists_present _ _ _ (ex_intro _ f Hf)). cbv beta iota delta [negb].
  apply try_ok. unfold Docx.Document, Docx.save.
  rewrite (bind_read _ _ _ _ _ _ _ Hf Hd), fold_add_paragraph.
  rewrite (bind_write _ _ _ _ Hw). reflexivity.
Qed.

Lemma update_xlsx_ok (w : world) (filename name : pystr)
    (data : list (list pystr)) (f : file) (wb : workbook) (i : nat) :
  disk w !! path_str (resolve filename Spreadsheet) = Some f ->
  as_xlsx f = Ok wb ->
  Xlsx.find_index (fun s => bool_decide (title s = name)) (sheets wb) = Some i ->
  writable w (resolve filename Spreadsheet) ->
  Server.update_xlsx filename name data w
  = (Ok ("✅ Updated Excel file " ++ filename ++ " with "
           ++ str_of_nat (length data) ++ " rows."),
     Os.put (resolve filename Spreadsheet)
       (Xlsx.package (resolve filename Spreadsheet)
          {| sheets :=
               alter (fun s => {| title := title s;
                                  rows := rows s
                                          ++ (fmap (M:=list) Some <$> data) |})
                     i (sheets wb);
             active_index := active_index wb |}) w).
Proof.
  intros Hf Hd Hi Hw. enter_tool; name_path.
  rewrite (exists_present _ _ _ (ex_intro _ f Hf)). cbv beta iota delta [negb].
  apply try_ok. unfold Xlsx.load_workbook, Xlsx.save.
  rewrite (bind_read _ _ _ _ _ _ _ Hf Hd).
  destruct (find_index_Some _ _ _ Hi) as (sh & Hs & Ht).
  apply bool_decide_eq_true in Ht.
  assert (py_in name (Xlsx.sheetnames wb) = true) as ->.
  { apply bool_decide_eq_true. unfold Xlsx.sheetnames.
    apply list_elem_of_fmap. exists sh. split; [now symmetry|].
    apply list_elem_of_lookup. now exists i. }
  unfold Xlsx.getitem. rewrite Hi. cbn [obind]. rewrite bind_lift_ok.
  rewrite ofold_append, bind_lift_ok, (bind_write _ _ _ _ Hw). reflexivity.
Qed.

Lemma set_text_at (which : shape -> bool) (missing : pystr)
    (prs : presentation) (k : nat) (t : pystr) (sl : slide) (j : nat) :
  slides prs !! k = Some sl ->
  Xlsx.find_index which sl = Some j ->
  Pptx.set_text which missing prs k t
  = Ok {| slide_layouts := slide_layouts prs;
          slides := <[k := alter (fun s => {| ph_idx := ph_idx s;
                                              text := Some t |}) j sl]>
                      (slides prs) |}.
Proof. intros Hk Hj. unfold Pptx.set_text. now rewrite Hk, Hj. Qed.

Lemma new_slide_placeholder (l : layout) (i : nat) :
  i ∈ l ->
  exists j x, Xlsx.find_index (Pptx.is_placeholder i) (Pptx.new_slide l) = Some j
              /\ Pptx.new_slide l !! j = Some x /\ ph_idx x = Some i.
Proof.
  intros Hi.
  destruct (find_index_elem (Pptx.is_placeholder i) (Pptx.new_slide l)
              {| ph_idx := Some i; text := Some [] |}) as [j Hj].
  - unfold Pptx.new_slide. apply list_elem_of_fmap. now exists i.
  - unfold Pptx.is_placeholder. now apply bool_decide_eq_true.
  - destruct (find_index_Some _ _ _ Hj) as (x & Hx & Hp).
    exists j, x. repeat split; try assumption.
    now apply bool_decide_eq_true in Hp.
Qed.

Lemma insert_last {A} (xs : list A) (a b : A) :
  <[length xs := b]> (xs ++ [a]) = xs ++ [b].
Proof.
  rewrite insert_app_r_alt by lia. now rewrite Nat.sub_diag.
Qed.

Lemma lookup_last {A} (xs : list A) (a : A) : (xs ++ [a]) !! length xs = Some a.
Proof. now apply list_lookup_middle. Qed.

(** One described slide is added after the existing ones. *)
Lemma add_described (prs : presentation) (s : gmap pystr pystr) (l : layout) :
  slide_layouts prs !! 1%nat = Some l -> 0%nat ∈ l -> 1%nat ∈ l ->
  exists sl,
    Server.add_described_slide prs s
    = Ok {| slide_layouts := slide_layouts prs; slides := slides prs ++ [sl] |}
    /\ describes s sl.
Proof.
  intros Hl H0 H1.
  destruct (new_slide_placeholder l 0 H0) as (j0 & x0 & Hj0 & Hx0 & Hp0).
  destruct (new_slide_placeholder l 1 H1) as (j1 & x1 & Hj1 & Hx1 & Hp1).
  assert (j0 <> j1) as Hne by (intros ->; congruence).
  set (set_to t := fun s : shape => {| ph_idx := ph_idx s; text := Some t |}).
  exists (alter (set_to (Server.get s "content")) j1
            (alter (set_to (Server.get s "title")) j0 (Pptx.new_slide l))).
  split.
  - unfold Server.add_described_slide, Pptx.layout_at. rewrite Hl.
    cbn [obind]. unfold Pptx.add_slide. cbv beta iota.
    unfold Pptx.set_title_text, Pptx.set_placeholder_text.
    erewrite set_text_at; [|apply lookup_last|exact Hj0].
    cbn [obind slides slide_layouts]. rewrite insert_last.
    erewrite set_text_at; [|apply lookup_last|].
    + cbn [slides slide_layouts]. now rewrite insert_last.
    + now rewrite find_index_alter.
  - split.
    + exists j0. rewrite list_lookup_alter_ne by congruence.
      rewrite list_lookup_alter_eq, Hx0. subst set_to. cbn.
      now rewrite Hp0.
    + exists j1. rewrite list_lookup_alter_eq.
      rewrite list_lookup_alter_ne by exact Hne. rewrite Hx1.
      subst set_to. cbn. now rewrite Hp1.
Qed.

Lemma add_described_all (payload : list (gmap pystr pystr))
    (prs : presentation) (l : layout) :
  slide_layouts prs !! 1%nat = Some l -> 0%nat ∈ l -> 1%nat ∈ l ->
  exists news,
    ofold Server.add_described_slide prs payload
    = Ok {| slide_layouts := slide_layouts prs;
            slides := slides prs ++ news |}
    /\ Forall2 describes payload news.
Proof.
  intros Hl H0 H1. revert prs Hl.
  induction payload as [|s rest IH]; intros prs Hl.
  - exists []. split; [|constructor]. cbn. rewrite app_nil_r. now destruct prs.
  - destruct (add_described prs s l Hl H0 H1) as (sl & E & Hd).
    destruct (IH {| slide_layouts := slide_layouts prs;
                    slides := slides prs ++ [sl] |} Hl) as (news & E' & Hn).
    exists (sl :: news). split; [|now constructor].
    cbn [ofold]. rewrite E. cbn [obind]. rewrite E'. cbn [slides slide_layouts].
    now rewrite <- app_assoc.
Qed.

Lemma update_pptx_ok (w : world) (filename : pystr)
    (payload : list (gmap pystr pystr)) (f : file) (prs : presentation)
    (l : layout) :
  disk w !! path_str (resolve filename Presentation) = Some f ->
  as_pptx f = Ok prs ->
  slide_layouts prs !! 1%nat = Some l -> 0%nat ∈ l -> 1%nat ∈ l ->
  writable w (resolve filename Presentation) ->
  exists news,
    Forall2 describes payload news /\
    Server.update_pptx filename payload w
    = (Ok ("✅ Updated PowerPoint " ++ filename ++ " with "
             ++ str_of_nat (length payload) ++ " new slides."),
       Os.put (resolve filename Presentation)
         (Pptx.package (resolve filename Presentation)
            {| slide_layouts := slide_layouts prs;
               slides := slides prs ++ news |}) w).
Proof.
  intros Hf Hd Hl H0 H1 Hw.
  destruct (add_described_all payload prs l Hl H0 H1) as (news & E & Hn).
  exists news. split; [exact Hn|]. enter_tool; name_path.
  rewrite (exists_present _ _ _ (ex_intro _ f Hf)). cbv beta iota delta [negb].
  apply try_ok. unfold Pptx.Presentation, Pptx.save.
  rewrite (bind_read _ _ _ _ _ _ _ Hf Hd), E, bind_lift_ok.
  rewrite (bind_write _ _ _ _ Hw). reflexivity.
Qed.

(** The world after an update of a presentation whose slides are all
    added. *)
Lemma update_pptx_fold (w : world) (filename : pystr)
    (payload : list (gmap pystr pystr)) (f : file) (prs prs' : presentation) :
  disk w !! path_str (resolve filename Presentation) = Some f ->
  as_pptx f = Ok prs ->
  ofold Server.add_described_slide prs payload = Ok prs' ->
  writable w (resolve filename Presentation) ->
  Server.update_pptx filename payload w
  = (Ok ("✅ Updated PowerPoint " ++ filename ++ " with "
           ++ str_of_nat (length payload) ++ " new slides."),
     Os.put (resolve filename Presentation)
       (Pptx.package (resolve filename Presentation) prs') w).
Proof.
  intros Hf Hd E Hw. enter_tool; name_path.
  rewrite (exists_present _ _ _ (ex_intro _ f Hf)). cbv beta iota delta [negb].
  apply try_ok. unfold Pptx.Presentation, Pptx.save.
  rewrite (bind_read _ _ _ _ _ _ _ Hf Hd), E, bind_lift_ok.
  rewrite (bind_write _ _ _ _ Hw). reflexivity.
Qed.

(** On the second layout of the default template the new slide is the
    pair of its two texts. *)
Lemma add_described_default (prs : presentation) (s : gmap pystr pystr) :
  slide_layouts prs !! 1%nat = Some [0; 1]%nat ->
  Server.add_described_slide prs s
  = Ok {| slide_layouts := slide_layouts prs;
          slides := slides prs ++ [pair_slide (texts_of s)] |}.
Proof.
  intros Hl. unfold Server.add_described_slide, Pptx.layout_at. rewrite Hl.
  cbn [obind]. unfold Pptx.add_slide. cbv beta iota.
  unfold Pptx.set_title_text, Pptx.set_placeholder_text.
  rewrite (set_text_at _ _ _ _ _ (Pptx.new_slide [0; 1]%nat) 0%nat);
    [|apply lookup_last|reflexivity].
  cbn [obind slides slide_layouts]. rewrite insert_last.
  erewrite (set_text_at _ _ _ _ _ _ 1%nat); [|apply lookup_last|reflexivity].
  cbn [slides slide_layouts]. now rewrite insert_last.
Qed.

Lemma add_described_default_all (payload : list (gmap pystr pystr))
    (prs : presentation) :
  slide_layouts prs !! 1%nat = Some [0; 1]%nat ->
  ofold Server.add_described_slide prs payload
  = Ok {| slide_layouts := slide_layouts prs;
          slides := slides prs ++ (pair_slide <$> (texts_of <$> payload)) |}.
Proof.
  revert prs. induction payload as [|s rest IH]; intros prs Hl.
  - cbn. rewrite app_nil_r. now destruct prs.
  - cbn [ofold]. rewrite (add_described_default _ _ Hl). cbn [obind].
    rewrite IH by exact Hl. cbn [slides slide_layouts fmap list_fmap].
    now rewrite <- app_assoc.
Qed.

(** The text of slides that hold pairs of texts, written out. *)
Lemma deck_text_pairs (l : list (pystr * pystr)) :
  deck_text (pair_slide <$> l)
  = py_or (deck_lines l) "(empty presentation)".
Proof.
  unfold deck_text, deck_lines. rewrite imap_fmap.
  now rewrite (imap_ext _ (fun i tc => slide_lines i (fst tc) (snd tc)))
    by reflexivity.
Qed.



(** ** Creating a Word document *)

Lemma create_docx_fresh (w : world) (name content : pystr) :
  absent w (resolve name Word) -> writable w (resolve name Word) ->
  Server.create_docx name content w
  = (Ok ("✅ Created Word document: " ++ path_str (resolve name Word)),
     Os.put (resolve name Word)
       (Docx.package (resolve name Word)
          {| paragraphs := [first_paragraph content] |}) w).
Proof.
  intros Ha Hw. pose proof (create_fresh Word w name content Ha Hw) as E.
  unfold create, created, initial in E. exact E.
Qed.

Lemma copy_create_fresh (w : world) (name content : pystr) :
  absent w (resolve name Word) -> writable w (resolve name Word) ->
  Copy.create_docx name content w
  = (Ok ("✅ Created document: " ++ path_str (resolve name Word)),
     Os.put (resolve name Word)
       (Docx.package (resolve name Word)
          {| paragraphs := [first_paragraph content] |}) w).
Proof.
  intros Ha Hw. enter_tool; word_path; name_path.
  rewrite (exists_absent _ _ _ Ha (writable_stat _ _ Hw)). cbv beta iota.
  apply try_ok. unfold Docx.save, Docx.Document, first_paragraph.
  rewrite (bind_write _ _ _ _ Hw).
  destruct (truthy (strip content));
    erewrite bind_read; try apply lookup_put; reflexivity.
Qed.

Lemma lstrip_blank (s : pystr) : forallb isspace s = true -> lstrip s = [].
Proof.
  induction s as [|c s IH]; [reflexivity|]. cbn [forallb lstrip].
  intros H. apply andb_true_iff in H as [Hc Hs]. rewrite Hc. exact (IH Hs).
Qed.

Lemma strip_blank (s : pystr) : forallb isspace s = true -> strip s = [].
Proof. intros H. unfold strip. now rewrite (lstrip_blank _ H). Qed.

(** C10 — Word creation with content made of whitespace only (empty
    content included) stores the single paragraph [(new document)], in
    [server.py] and in the Word-only variant, and a read shows it. *)
Theorem blank_content_placeholder (w : world) (name content : pystr) :
  forallb isspace content = true ->
  absent w (resolve name Word) -> writable w (resolve name Word) ->
  let stored := Docx.package (resolve name Word)
                  {| paragraphs := ["(new document)"] |} in
  let w' := Os.put (resolve name Word) stored w in
  strip content = [] /\
  Server.create_docx name content w
  = (Ok ("✅ Created Word document: " ++ path_str (resolve name Word)), w') /\
  Copy.create_docx name content w
  = (Ok ("✅ Created document: " ++ path_str (resolve name Word)), w') /\
  fst (Docx.Document (resolve name Word) w')
  = Ok {| paragraphs := ["(new document)"] |} /\
  fst (Server.read_docx name w') = Ok "(new document)".
Proof.
  intros Hb Ha Hw stored w'. pose proof (strip_blank _ Hb) as Hs.
  assert (first_paragraph content = "(new document)") as Hp
    by (unfold first_paragraph; now rewrite Hs).
  split; [exact Hs|]. split; [|split; [|split]].
  - rewrite (create_docx_fresh _ _ _ Ha Hw). now rewrite Hp.
  - rewrite (copy_create_fresh _ _ _ Ha Hw). now rewrite Hp.
  - unfold Docx.Document. subst w'.
    now rewrite (read_view _ _ _ _ _ (lookup_put _ _ _)).
  - subst w'.
    rewrite (read_docx_ok _ name stored {| paragraphs := ["(new document)"] |}
               (lookup_put _ _ _) eq_refl).
    cbn [fst]. f_equal.
Qed.

(** C8 — On a fresh name, creating with a content and then reading
    succeeds and the text read contains the content, for each format: for
    content the codec keeps and, for a Word document, content that is not
    blank (blank content is replaced by a placeholder). *)
Theorem round_trip (fmt : format) (w : world) (name content : pystr) :
  storable fmt content = true ->
  absent w (resolve name fmt) -> writable w (resolve name fmt) ->
  exists w',
    create fmt name content w = (Ok (created fmt (resolve name fmt)), w') /\
    fst (read fmt name w') = Ok (read_back fmt content) /\
    occurs_in content (read_back fmt content).
Proof.
  intros Hc Ha Hw. set (p := resolve name fmt) in *.
  exists (Os.put p (initial fmt p content) w).
  pose proof (create_fresh fmt w name content Ha Hw) as E. fold p in E.
  split; [exact E|]. destruct fmt; unfold read, read_back.
  - apply andb_true_iff in Hc as [_ Hc].
    rewrite (read_docx_ok _ name (initial Word p content)
               {| paragraphs := [first_paragraph content] |}
               (lookup_put _ _ _) eq_refl).
    unfold first_paragraph, word_text. rewrite Hc. cbn [fst paragraphs join].
    unfold py_or. destruct content as [|c content]; [discriminate Hc|].
    split; [reflexivity|]. exists [], []. now rewrite app_nil_r.
  - rewrite (read_xlsx_active _ name (initial Spreadsheet p content)
               {| sheets := [{| title := "Sheet1";
                                rows := [[Some content]] |}];
                  active_index := 0 |}
               {| title := "Sheet1"; rows := [[Some content]] |}
               (lookup_put _ _ _) eq_refl eq_refl).
    split.
    + cbn [fst rows]. unfold sheet_text, Xlsx.grid, Xlsx.pad.
      cbn. reflexivity.
    + unfold py_or. destruct content as [|c content].
      * now exists [], "(empty sheet)".
      * exists [], []. now rewrite app_nil_r.
  - rewrite (read_pptx_ok _ name (initial Presentation p content)
               {| slide_layouts := Pptx.default_layouts;
                  slides := [title_slide "New Presentation" content] |}
               (lookup_put _ _ _) eq_refl).
    split; [reflexivity|].
    exists ("Slide 1:" ++ nl ++ "New Presentation" ++ nl), [].
    rewrite app_nil_r. reflexivity.
Qed.

(** C8, as stated for the content given, fails: a Word document created
    with a tab as content holds the placeholder, and the read does not
    contain the tab. *)
Lemma blank_content_lost :
  fst (read Word "memo" (snd (create Word "memo" [9] empty_world)))
  = Ok "(new document)" /\
  ~ occurs_in [9] "(new document)" /\
  ~ (forall fmt w name content,
       absent w (resolve name fmt) -> writable w (resolve name fmt) ->
       exists w' s,
         create fmt name content w
         = (Ok (created fmt (resolve name fmt)), w') /\
         fst (read fmt name w') = Ok s /\ occurs_in content s).
Proof.
  assert (fst (read Word "memo" (snd (create Word "memo" [9] empty_world)))
          = Ok "(new document)") as E by (vm_compute; reflexivity).
  assert (~ occurs_in [9] "(new document)") as N.
  { intros (pre & post & H).
    assert (9 ∈ "(new document)") as Hin
      by (rewrite H; apply elem_of_app; right; left).
    revert Hin. apply (bool_decide_eq_false_1 _). vm_compute. reflexivity. }
  split; [exact E|]. split; [exact N|].
  intros H.
  destruct (H Word empty_world "memo" [9]) as (w' & s & C & R & O);
    [vm_compute; reflexivity|vm_compute; reflexivity|].
  rewrite C in E. cbn [snd] in E. rewrite E in R. injection R as <-.
  exact (N O).
Qed.

(** ** Every call is answered *)

(** Case analysis on every library result a tool inspects. *)
Ltac crunch :=
  repeat (cbv beta iota;
          match goal with
          | |- context [match ?x with _ => _ end] =>
            lazymatch x with
            | context [match _ with _ => _ end] => fail
            | _ => destruct x eqn:?
            end
          end).

Ltac open_library :=
  unfold try_except, bind, lift, ret, Docx.Document, Docx.save,
    Xlsx.load_workbook, Xlsx.save, Pptx.Presentation, Pptx.save,
    Zip.namelist, Os.read, Os.write, Os.remove, Xlsx.getitem, Xlsx.iter_rows,
    Xlsx.deref, Xlsx.active, obind.

Ltac answered :=
  eexists; split; [reflexivity|];
  first [ left; split; [reflexivity|]; first [reflexivity | discriminate]
        | right; split; [reflexivity|]; eexists; split; [reflexivity|];
          first [ eexists; split; [eassumption|same]
                | eexists; eexists; split; [eassumption|]; split; [|same];
                  eapply list_elem_of_lookup_2; eassumption ] ].

(** A call returns a string: marked, with the failure marker when the call
    is a read; or the text a read found. *)
Lemma answer (t : tool) (w : world) :
  Os.stat_error w (target t) = None ->
  exists s, fst (invoke t w) = Ok s /\
    ((marked s = true /\ (is_read t = true -> startswith s fail_mark = true))
     \/ (is_read t = true /\ shown t w s)).
Proof.
  intros Hs. unfold shown.
  destruct t; enter_tool; name_path;
    (destruct (disk w !! path_str p) as [f|] eqn:Hf;
     [rewrite (exists_present _ _ _ (ex_intro _ f Hf))
     |rewrite (exists_absent _ _ _ Hf Hs)]);
    cbv beta iota delta [negb]; try answered;
    open_library; rewrite ?Hf, ?Hs; crunch; rewrite ?Hf; crunch; cbn [fst];
    answered.
Qed.

Lemma copy_answer (t : copy_tool) (w : world) :
  Os.stat_error w (target (server_of t)) = None ->
  exists s, fst (copy_invoke t w) = Ok s /\
    ((marked s = true /\
      (copy_is_read t = true -> startswith s fail_mark = true))
     \/ (copy_is_read t = true /\ copy_shown t w s)).
Proof.
  intros Hs. unfold copy_shown.
  destruct t; cbn [server_of] in Hs; enter_tool; word_path; name_path;
    (destruct (disk w !! path_str p) as [f|] eqn:Hf;
     [rewrite (exists_present _ _ _ (ex_intro _ f Hf))
     |rewrite (exists_absent _ _ _ Hf Hs)]);
    cbv beta iota delta [negb];
    try (eexists; split; [reflexivity|]; left; split;
         [reflexivity|]; first [reflexivity | discriminate]);
    open_library; rewrite ?Hf, ?Hs; crunch; rewrite ?Hf; crunch; cbn [fst];
    eexists; (split; [reflexivity|]);
    first [ left; split; [reflexivity|]; first [reflexivity | discriminate]
          | right; split; [reflexivity|]; do 2 eexists;
            split; [reflexivity|]; split; [eassumption|same] ].
Qed.

(** C7 — Every call whose existence check returns gives back a string and
    raises nothing: every library call after the check sits in a [try]
    block.  The answer of a create, update or delete starts with one of the
    three markers; a read answers with the failure marker, or with the text
    of the content it found, which carries no marker.  The existence check
    itself is outside the [try] block in every tool: the error [stat]
    raises there leaves the call, and nothing is changed. *)
Theorem every_call_answered (t : tool) (c : copy_tool) (w : world) :
  (Os.stat_error w (target t) = None ->
   exists s, fst (invoke t w) = Ok s /\
     (is_read t = false -> marked s = true) /\
     (is_read t = true -> startswith s fail_mark = true \/ shown t w s)) /\
  (forall e, Os.stat_error w (target t) = Some e ->
             invoke t w = (Raised e, w)) /\
  (Os.stat_error w (target (server_of c)) = None ->
   exists s, fst (copy_invoke c w) = Ok s /\
     (copy_is_read c = false -> marked s = true) /\
     (copy_is_read c = true ->
      startswith s fail_mark = true \/ copy_shown c w s)) /\
  (forall e, Os.stat_error w (target (server_of c)) = Some e ->
             copy_invoke c w = (Raised e, w)).
Proof.
  split; [|split; [|split]].
  - intros Hg.
    destruct (answer t w Hg) as (s & E & [[Hm Hr]|[Hr Hs]]); exists s;
      (split; [exact E|]); split; intros H; try congruence; auto.
  - intros e. apply guard_raises.
  - intros Hg.
    destruct (copy_answer c w Hg) as (s & E & [[Hm Hr]|[Hr Hs]]); exists s;
      (split; [exact E|]); split; intros H; try congruence; auto.
  - intros e. apply copy_guard_raises.
Qed.

(** C7, as stated, fails: a successful read returns the text of the
    document, which starts with no marker. *)
Lemma read_answer_unmarked :
  fst (invoke (read_word "memo") hello_world) = Ok "Hello" /\
  marked "Hello" = false /\
  ~ (forall t w, exists s, fst (invoke t w) = Ok s /\ marked s = true).
Proof.
  assert (fst (invoke (read_word "memo") hello_world) = Ok "Hello") as E
    by (vm_compute; reflexivity).
  split; [exact E|]. split; [reflexivity|].
  intros H. destruct (H (read_word "memo") hello_world) as (s & Hs & Hm).
  rewrite E in Hs. injection Hs as <-. discriminate Hm.
Qed.

(** ** A read is never empty *)




(** ** The statements at concrete inputs *)

Lemma word_read_failure_classified_witness :
  disk damaged_world !! path_str (resolve "memo" Word) = Some damaged_word_file /\
  as_docx damaged_word_file = Raised "Document is empty, line 1, column 1" /\
  Copy.read_docx "memo" damaged_world
  = (Ok "❌ Could not read memo: Document is empty, line 1, column 1",
     damaged_world) /\
  Server.read_docx "memo" damaged_world
  = (Ok "❌ Failed to read Word doc: Document is empty, line 1, column 1",
     damaged_world).
Proof.
  assert (disk damaged_world !! path_str (resolve "memo" Word)
          = Some damaged_word_file) as H1 by (vm_compute; reflexivity).
  assert (as_docx damaged_word_file
          = Raised "Document is empty, line 1, column 1") as H2
    by reflexivity.
  split; [exact H1|]. split; [exact H2|].
  destruct (word_read_failure_classified damaged_world "memo"
              damaged_word_file _ H1 H2) as (C & S & _).
  split; [exact C|exact S].
Defined.

Lemma resolver_confined_witness :
  startswith "reports/q3" "/" = false /\
  (".." ∉ split sep "reports/q3") /\
  lies_within Server.DOCS_DIR (resolve "reports/q3" Spreadsheet) /\
  lies_within Copy.DOCS_DIR (Copy.get_doc_path "reports/q3").
Proof.
  assert (startswith "reports/q3" "/" = false) as H1 by reflexivity.
  assert (".." ∉ split sep "reports/q3") as H2
    by (apply (bool_decide_eq_false_1 _); vm_compute; reflexivity).
  split; [exact H1|]. split; [exact H2|].
  exact (resolver_confined "reports/q3" Spreadsheet H1 H2).
Defined.


Lemma lifecycle_guards_witness :
  invoke (create_word "memo" "again") memo_world
  = (Ok "❌ File already exists: documents/memo.docx", memo_world) /\
  invoke (update_spreadsheet "book" "Sheet1" [["a"]]) empty_world
  = (Ok "❌ File not found: documents/book.xlsx", empty_world) /\
  invoke (delete_word overlong) overlong_world
  = (Raised (Os.enametoolong (resolve overlong Word)), overlong_world) /\
  delete_ Word "memo" (snd (delete_ Word "memo" memo_world))
  = (Ok "❌ File not found: documents/memo.docx",
     snd (delete_ Word "memo" memo_world)).
Proof.
  split; [|split; [|split]].
  - destruct (lifecycle_guards (create_word "memo" "again") Word "memo"
                memo_world) as (H & _ & _).
    apply H; [reflexivity|]. exists memo_file. vm_compute; reflexivity.
  - destruct (lifecycle_guards (update_spreadsheet "book" "Sheet1" [["a"]])
                Word "memo" empty_world) as (_ & H & _).
    apply H; [reflexivity|vm_compute; reflexivity|vm_compute; reflexivity].
  - destruct (lifecycle_guards (delete_word overlong) Word "memo"
                overlong_world) as (_ & _ & H & _).
    apply H. vm_compute; reflexivity.
  - destruct (lifecycle_guards (read_word "memo") Word "memo" memo_world)
      as (_ & _ & _ & H).
    apply (H "🗑️ Deleted Word doc: documents/memo.docx").
    + vm_compute; reflexivity.
    + reflexivity.
Defined.


Lemma every_call_answered_witness :
  Os.stat_error memo_world (target (delete_word "memo")) = None /\
  (exists s, fst (invoke (delete_word "memo") memo_world) = Ok s /\
             marked s = true) /\
  (exists s, fst (copy_invoke (copy_read "memo") memo_world) = Ok s /\
             (startswith s fail_mark = true
              \/ copy_shown (copy_read "memo") memo_world s)) /\
  invoke (create_word overlong "x") overlong_world
  = (Raised (Os.enametoolong (resolve overlong Word)), overlong_world).
Proof.
  assert (Os.stat_error memo_world (target (delete_word "memo")) = None)
    as Hg by (vm_compute; reflexivity).
  split; [exact Hg|].
  destruct (every_call_answered (delete_word "memo") (copy_read "memo")
              memo_world) as (A & _ & B & _).
  destruct (A Hg) as (s & E & M & _).
  destruct (B Hg) as (s' & E' & _ & R).
  split; [|split].
  - exists s. split; [exact E|]. apply M. reflexivity.
  - exists s'. split; [exact E'|]. apply R. reflexivity.
  - destruct (every_call_answered (create_word overlong "x")
                (copy_read "memo") overlong_world) as (_ & H & _).
    apply H. vm_compute; reflexivity.
Defined.

Lemma round_trip_witness :
  absent empty_world (resolve "memo" Word) /\
  writable empty_world (resolve "memo" Word) /\
  (forall fmt, storable fmt "X" = true) /\
  (forall fmt, exists w',
      create fmt "memo" "X" empty_world
      = (Ok (created fmt (resolve "memo" fmt)), w') /\
      fst (read fmt "memo" w') = Ok (read_back fmt "X") /\
      occurs_in "X" (read_back fmt "X")) /\
  read_back Word "X" = "X" /\
  read_back Spreadsheet "X" = "X" /\
  read_back Presentation "X"
  = "Slide 1:" ++ nl ++ "New Presentation" ++ nl ++ "X".
Proof.
  split; [vm_compute; reflexivity|]. split; [vm_compute; reflexivity|].
  split; [intros fmt; now destruct fmt|].
  split; [|repeat split].
  intros fmt. apply (round_trip fmt empty_world "memo" "X");
    destruct fmt; vm_compute; reflexivity.
Defined.


Lemma blank_content_placeholder_witness :
  forallb isspace [32; 9; 10; 160; 12288] = true /\
  absent empty_world (resolve "memo" Word) /\
  writable empty_world (resolve "memo" Word) /\
  fst (Server.create_docx "memo" [32; 9; 10; 160; 12288] empty_world)
  = Ok "✅ Created Word document: documents/memo.docx" /\
  fst (Server.read_docx "memo"
         (snd (Server.create_docx "memo" [32; 9; 10; 160; 12288] empty_world)))
  = Ok "(new document)".
Proof.
  assert (forallb isspace [32; 9; 10; 160; 12288] = true) as H1 by reflexivity.
  assert (absent empty_world (resolve "memo" Word)) as H2
    by (vm_compute; reflexivity).
  assert (writable empty_world (resolve "memo" Word)) as H3
    by (vm_compute; reflexivity).
  split; [exact H1|]. split; [exact H2|]. split; [exact H3|].
  destruct (blank_content_placeholder empty_world "memo" _ H1 H2 H3)
    as (_ & C & _ & _ & R).
  rewrite C. split; [reflexivity|exact R].
Defined.

(** ** The scenario of the specification *)

Example memo_scenario :
  let '(r1, w1) := invoke (create_word "memo" "Hello") empty_world in
  let '(r2, w2) := invoke (read_word "memo") w1 in
  let '(r3, w3) := invoke (update_word "memo" ["Line 2"; "Line 3"]) w2 in
  let '(r4, w4) := invoke (read_word "memo") w3 in
  let '(r5, w5) := invoke (delete_word "memo") w4 in
  let '(r6, w6) := invoke (read_word "memo") w5 in
  r1 = Ok "✅ Created Word document: documents/memo.docx" /\
  r2 = Ok "Hello" /\
  r3 = Ok "✅ Updated Word doc memo with 2 changes." /\
  r4 = Ok ("Hello" ++ nl ++ "Line 2" ++ nl ++ "Line 3") /\
  r5 = Ok "🗑️ Deleted Word doc: documents/memo.docx" /\
  r6 = Ok "❌ File not found: documents/memo.docx" /\
  w6 = empty_world.
Proof. vm_compute. repeat split. Qed.

(** * Further properties *)

(** ** The effect of a call on the file system *)

Ltac settle_effect :=
  do 2 eexists; split; [reflexivity|];
  first
    [ left; split; [reflexivity|]; intros _; reflexivity
    | left; split; [reflexivity|]; discriminate
    | right; split; [reflexivity|]; left; split; [reflexivity|];
      split; [first [assumption|reflexivity]|];
      split; [first [assumption|reflexivity]|]; eexists; reflexivity
    | right; split; [reflexivity|]; right; left; split; [reflexivity|];
      split; [eexists; eassumption|];
      split; [first [assumption|reflexivity]|]; reflexivity
    | right; split; [reflexivity|]; right; right; split; [reflexivity|];
      split; [first [assumption|reflexivity]|];
      do 2 eexists; split; [first [eassumption|reflexivity]|reflexivity] ].

(** The existence check of a call raises, and the call with it; or the call
    answers.  Then it leaves the world as it is, and a tool that is no read
    answers with the failure marker; or it stores one file at its path and
    answers with the success marker; or it unlinks the file at its path and
    answers with the deletion marker; or its save is cut short, it answers
    with the failure marker and its path holds what the save left. *)
Lemma effect (t : tool) (w : world) :
  (exists e, Os.stat_error w (target t) = Some e /\
             invoke t w = (Raised e, w)) \/
  (Os.stat_error w (target t) = None /\
   exists s w', invoke t w = (Ok s, w') /\
    ((w' = w /\ (is_read t = false -> startswith s fail_mark = true)) \/
     (is_read t = false /\
      ((startswith s ok_mark = true /\
        denied w !! path_str (target t) = None /\
        cut w !! path_str (target t) = None /\
        exists f, w' = Os.put (target t) f w) \/
       (startswith s bin_mark = true /\ present w (target t) /\
        denied w !! path_str (target t) = None /\
        w' = Os.drop (target t) w) \/
       (startswith s fail_mark = true /\
        denied w !! path_str (target t) = None /\
        exists e rest, cut w !! path_str (target t) = Some (e, rest) /\
                       w' = Os.put (target t) rest w))))).
Proof.
  destruct (Os.stat_error w (target t)) as [e|] eqn:Hs.
  - left. exists e. split; [reflexivity|]. now apply guard_raises.
  - right. split; [reflexivity|]. revert Hs.
    destruct t; enter_tool; name_path; intros Hs;
      (destruct (disk w !! path_str p) as [f|] eqn:Hf;
       [rewrite (exists_present _ _ _ (ex_intro _ f Hf))
       |rewrite (exists_absent _ _ _ Hf Hs)]);
      cbv beta iota delta [negb]; try settle_effect;
      open_library; rewrite ?Hf, ?Hs; crunch; rewrite ?Hf; crunch;
      settle_effect.
Qed.

Lemma copy_effect (c : copy_tool) (w : world) :
  (exists e, Os.stat_error w (target (server_of c)) = Some e /\
             copy_invoke c w = (Raised e, w)) \/
  (Os.stat_error w (target (server_of c)) = None /\
   exists s w', copy_invoke c w = (Ok s, w') /\
    ((w' = w /\ (copy_is_read c = false -> startswith s fail_mark = true)) \/
     (copy_is_read c = false /\
      ((startswith s ok_mark = true /\
        denied w !! path_str (target (server_of c)) = None /\
        cut w !! path_str (target (server_of c)) = None /\
        exists f, w' = Os.put (target (server_of c)) f w) \/
       (startswith s bin_mark = true /\ present w (target (server_of c)) /\
        denied w !! path_str (target (server_of c)) = None /\
        w' = Os.drop (target (server_of c)) w) \/
       (startswith s fail_mark = true /\
        denied w !! path_str (target (server_of c)) = None /\
        exists e rest,
          cut w !! path_str (target (server_of c)) = Some (e, rest) /\
          w' = Os.put (target (server_of c)) rest w))))).
Proof.
  destruct (Os.stat_error w (target (server_of c))) as [e|] eqn:Hs.
  - left. exists e. split; [reflexivity|]. now apply copy_guard_raises.
  - right. split; [reflexivity|]. revert Hs.
    destruct c; enter_tool; word_path; cbn [server_of]; name_path; intros Hs;
      (destruct (disk w !! path_str p) as [f|] eqn:Hf;
       [rewrite (exists_present _ _ _ (ex_intro _ f Hf))
       |rewrite (exists_absent _ _ _ Hf Hs)]);
      cbv beta iota delta [negb]; try settle_effect;
      open_library; rewrite ?Hf, ?Hs; crunch; rewrite ?Hf; crunch;
      try settle_effect.
    all: unfold Os.put in *; cbn [disk] in *;
      rewrite lookup_insert_eq in *; simplify_eq.
Qed.


(** X1 — The three reading tools of [server.py] and the reading tool of the
    variant never change the file system, whatever the file holds. *)
Theorem reads_leave_world (filename : pystr) (sheet_name : option pystr)
    (w : world) :
  snd (Server.read_docx filename w) = w /\
  snd (Server.read_xlsx filename sheet_name w) = w /\
  snd (Server.read_pptx filename w) = w /\
  snd (Copy.read_docx filename w) = w.
Proof.
  repeat match goal with |- _ /\ _ => split end.
  - destruct (effect (read_word filename) w)
      as [(e & _ & E)|(_ & s & w' & E & [[-> _]|[H _]])];
      [| |discriminate H]; cbn [invoke] in E; now rewrite E.
  - destruct (effect (read_spreadsheet filename sheet_name) w)
      as [(e & _ & E)|(_ & s & w' & E & [[-> _]|[H _]])];
      [| |discriminate H]; cbn [invoke] in E; now rewrite E.
  - destruct (effect (read_presentation filename) w)
      as [(e & _ & E)|(_ & s & w' & E & [[-> _]|[H _]])];
      [| |discriminate H]; cbn [invoke] in E; now rewrite E.
  - destruct (copy_effect (copy_read filename) w)
      as [(e & _ & E)|(_ & s & w' & E & [[-> _]|[H _]])];
      [| |discriminate H]; cbn [copy_invoke] in E; now rewrite E.
Qed.


(** A call changes its own path only. *)
Lemma elsewhere_kept (t : tool) (w : world) (k : pystr) :
  k <> path_str (target t) ->
  disk (snd (invoke t w)) !! k = disk w !! k /\
  denied (snd (invoke t w)) = denied w /\
  unstatable (snd (invoke t w)) !! k = unstatable w !! k /\
  cut (snd (invoke t w)) = cut w.
Proof.
  intros Hk.
  destruct (effect t w) as [(e & _ & E)|(_ & s & w' & E & H)];
    rewrite E; cbn [snd]; [auto|].
  destruct H as [[-> _]|[_ [(_ & _ & _ & f & ->)
                           |[(_ & _ & _ & ->)|(_ & _ & e & rest & _ & ->)]]]];
    [auto| | |]; unfold Os.put, Os.drop; cbn [disk denied unstatable cut];
    repeat match goal with |- _ /\ _ => split end; try reflexivity.
  all: first [now apply lookup_insert_ne|now apply lookup_delete_ne].
Qed.

(** X3 — A call touches its own file only: a file at a path with another
    last component is as before. *)
Theorem other_files_untouched (t : tool) (w : world) (k : pystr) :
  basename k <> basename (path_str (target t)) ->
  disk (snd (invoke t w)) !! k = disk w !! k.
Proof.
  intros Hk.
  destruct (elsewhere_kept t w k) as (D & _); [congruence|exact D].
Qed.

(** X4 — The Word tools of the variant and of [server.py] have the same
    effect on the file system.  Where the existence check raises, both
    raise the same error; otherwise both answer, they fail on the same
    calls, and a successful read returns the same text in both. *)
Theorem variant_agrees (c : copy_tool) (w : world) :
  snd (copy_invoke c w) = snd (invoke (server_of c) w) /\
  ((exists e,
      fst (copy_invoke c w) = Raised e /\
      fst (invoke (server_of c) w) = Raised e) \/
   (exists sc ss,
      fst (copy_invoke c w) = Ok sc /\
      fst (invoke (server_of c) w) = Ok ss /\
      startswith sc fail_mark = startswith ss fail_mark /\
      (sc = ss \/ copy_is_read c = false \/ startswith sc fail_mark = true))).
Proof.
  destruct (Os.stat_error w (target (server_of c))) as [e|] eqn:Hs.
  - rewrite (copy_guard_raises _ _ _ Hs), (guard_raises _ _ _ Hs).
    split; [reflexivity|]. left. now exists e.
  - revert Hs.
    destruct c; cbn [server_of]; enter_tool; word_path; name_path; intros Hs;
      (destruct (disk w !! path_str p) as [f|] eqn:Hf;
       [rewrite !(exists_present _ _ _ (ex_intro _ f Hf))
       |rewrite !(exists_absent _ _ _ Hf Hs)]);
      cbv beta iota delta [negb];
      open_library; rewrite ?Hf, ?Hs; crunch; rewrite ?Hf; crunch;
      try (unfold Os.put in *; cbn [disk] in *;
           rewrite lookup_insert_eq in *; simplify_eq);
      (split; [reflexivity|]); right; do 2 eexists;
      (split; [reflexivity|]); (split; [reflexivity|]);
      (split; [reflexivity|]);
      first [ left; reflexivity | right; left; reflexivity
            | right; right; reflexivity ].
Qed.

(** ** Sequences of calls *)

Lemma target_resolve (t : tool) :
  target t = resolve (filename_of t) (format_of t).
Proof. now destruct t. Qed.

Lemma drop_put (p : Path) (f : file) (w : world) :
  absent w p -> Os.stat_error w p = None -> Os.drop p (Os.put p f w) = w.
Proof.
  intros H Hs. rewrite (stat_absent _ _ H) in Hs.
  destruct w as [d dn un ct]. unfold Os.drop, Os.put; cbn in *.
  f_equal; [now apply delete_insert_id|].
  rewrite delete_delete_eq. now apply delete_id.
Qed.


Lemma put_put (p : Path) (f g : file) (w : world) :
  Os.put p f (Os.put p g w) = Os.put p f w.
Proof.
  unfold Os.put; cbn. f_equal; [apply insert_insert_eq|apply delete_delete_eq].
Qed.

(** X5 — Creating on a free path and then deleting gives back the file
    system as it was, whatever the creation is asked to store and whether
    or not it succeeds. *)
Theorem create_then_delete (t : tool) (w : world) :
  is_create t = true -> absent w (target t) ->
  snd (delete_ (format_of t) (filename_of t) (snd (invoke t w))) = w.
Proof.
  intros Hc Ha.
  destruct (effect t w) as [(e & Hs & E)|(Hs & s & w' & E & H)];
    rewrite E; cbn [snd]; rewrite target_resolve in *.
  - now rewrite (delete_raises _ _ _ _ Hs).
  - destruct H as [[-> _]|[_ [(_ & Hd & _ & f & ->)
                             |[(_ & Hp & _)|(_ & Hd & e & rest & _ & ->)]]]].
    + now rewrite (delete_absent _ _ _ Ha Hs).
    + rewrite delete_present; [|apply present_put|exact Hd].
      cbn [snd]. now apply drop_put.
    + destruct Hp as [f Hf]. unfold absent in Ha. congruence.
    + rewrite delete_present; [|apply present_put|exact Hd].
      cbn [snd]. now apply drop_put.
Qed.


(** ** Failures of the libraries *)

(** X7 — An update of a file that does not parse answers with the message
    of the codec and leaves the file as it is: a damaged or foreign file is
    never overwritten. *)
Theorem update_keeps_unreadable (w : world) (filename : pystr) (f : file)
    (e : pystr) :
  (forall changes,
     disk w !! path_str (resolve filename Word) = Some f ->
     as_docx f = Raised e ->
     Server.update_docx filename changes w = (Ok (update_failed Word e), w)) /\
  (forall sheet data,
     disk w !! path_str (resolve filename Spreadsheet) = Some f ->
     as_xlsx f = Raised e ->
     Server.update_xlsx filename sheet data w
     = (Ok (update_failed Spreadsheet e), w)) /\
  (forall payload,
     disk w !! path_str (resolve filename Presentation) = Some f ->
     as_pptx f = Raised e ->
     Server.update_pptx filename payload w
     = (Ok (update_failed Presentation e), w)).
Proof.
  unfold update_failed.
  split; [intros changes Hf Hd|split; [intros sheet data Hf Hd
                                      |intros payload Hf Hd]];
    enter_tool; name_path;
    rewrite (exists_present _ _ _ (ex_intro _ f Hf));
    cbv beta iota delta [negb];
    unfold Docx.Document, Xlsx.load_workbook, Pptx.Presentation;
    (erewrite try_raised;
      [reflexivity|exact (bind_read_raised _ _ _ _ _ _ _ Hf Hd)]).
Qed.


(** ** Successive updates *)

Lemma writable_intro (w : world) (p : Path) :
  Os.stat_error w p = None -> denied w !! path_str p = None ->
  cut w !! path_str p = None -> writable w p.
Proof. intros Hs Hd Hc. unfold writable, hindrance. now rewrite Hs, Hd, Hc. Qed.

Lemma writable_put (p : Path) (f : file) (w : world) :
  writable w p -> writable (Os.put p f w) p.
Proof.
  intros H. destruct (writable_parts _ _ H) as (_ & Hd & Hc).
  apply writable_intro; [apply stat_present, present_put|exact Hd|exact Hc].
Qed.

Lemma update_docx_unreadable (w : world) (filename : pystr)
    (changes : list pystr) (f : file) (e : pystr) :
  disk w !! path_str (resolve filename Word) = Some f ->
  as_docx f = Raised e ->
  Server.update_docx filename changes w
  = (Ok ("❌ Failed to update Word doc: " ++ e), w).
Proof.
  intros Hf Hd. enter_tool; name_path.
  rewrite (exists_present _ _ _ (ex_intro _ f Hf)). cbv beta iota delta [negb].
  unfold Docx.Document. erewrite try_raised; [reflexivity|].
  exact (bind_read_raised _ _ _ _ _ _ _ Hf Hd).
Qed.

Lemma update_docx_denied (w : world) (filename : pystr)
    (changes : list pystr) (f : file) (doc : document) (e : pystr) :
  disk w !! path_str (resolve filename Word) = Some f ->
  as_docx f = Ok doc ->
  denied w !! path_str (resolve filename Word) = Some e ->
  Server.update_docx filename changes w
  = (Ok ("❌ Failed to update Word doc: " ++ e), w).
Proof.
  intros Hf Hd He.
  pose proof (stat_present _ _ (ex_intro _ f Hf)) as Hs.
  enter_tool; name_path.
  rewrite (exists_present _ _ _ (ex_intro _ f Hf)). cbv beta iota delta [negb].
  unfold Docx.Document, Docx.save. erewrite try_raised; [reflexivity|].
  rewrite (bind_read _ _ _ _ _ _ _ Hf Hd).
  exact (bind_write_denied _ _ _ _ _ Hs He).
Qed.

(** X9 — Two successive updates of a Word document, with paragraphs the
    codec keeps and where no save is cut short, leave the file system as
    one update with the two lists of paragraphs in a row does: also when
    the document is missing, when its path cannot be examined, when it does
    not parse and when it cannot be opened for writing. *)
Theorem word_updates_compose (w : world) (filename : pystr)
    (a b : list pystr) :
  kept_all a = true -> kept_all b = true ->
  cut w !! path_str (resolve filename Word) = None ->
  snd (Server.update_docx filename b (snd (Server.update_docx filename a w)))
  = snd (Server.update_docx filename (a ++ b) w).
Proof.
  intros _ _ Hc. set (p := resolve filename Word) in *.
  destruct (Os.stat_error w p) as [e|] eqn:Hs.
  - pose proof (guard_raises (update_word filename a) w e Hs) as Ea.
    pose proof (guard_raises (update_word filename b) w e Hs) as Eb.
    pose proof (guard_raises (update_word filename (a ++ b)) w e Hs) as Eab.
    cbn [invoke] in Ea, Eb, Eab. rewrite Ea. cbn [snd]. now rewrite Eb, Eab.
  - destruct (disk w !! path_str p) as [f|] eqn:Hf.
    + destruct (as_docx f) as [doc|e] eqn:Hd.
      * destruct (denied w !! path_str p) as [e|] eqn:He.
        -- rewrite (update_docx_denied _ _ a _ _ _ Hf Hd He). cbn [snd].
           rewrite (update_docx_denied _ _ b _ _ _ Hf Hd He).
           now rewrite (update_docx_denied _ _ (a ++ b) _ _ _ Hf Hd He).
        -- pose proof (writable_intro _ _ Hs He Hc) as Hw.
           rewrite (update_docx_ok _ _ a _ _ Hf Hd Hw). cbn [snd]. fold p.
           rewrite (update_docx_ok _ _ b (Docx.package p _) _
                      (lookup_put _ _ _) eq_refl (writable_put _ _ _ Hw)).
           rewrite (update_docx_ok _ _ (a ++ b) _ _ Hf Hd Hw).
           cbn [snd paragraphs]. fold p. rewrite put_put.
           now rewrite <- app_assoc.
      * rewrite (update_docx_unreadable _ _ a _ _ Hf Hd). cbn [snd].
        rewrite (update_docx_unreadable _ _ b _ _ Hf Hd).
        now rewrite (update_docx_unreadable _ _ (a ++ b) _ _ Hf Hd).
    + pose proof (other_absent (update_word filename a) w eq_refl Hf Hs) as Ea.
      pose proof (other_absent (update_word filename b) w eq_refl Hf Hs) as Eb.
      pose proof (other_absent (update_word filename (a ++ b)) w eq_refl Hf Hs)
        as Eab.
      cbn [invoke] in Ea, Eb, Eab. rewrite Ea. cbn [snd]. now rewrite Eb, Eab.
Qed.

Lemma ofold_app {A B} (step : A -> B -> outcome A) (acc : A) (xs ys : list B) :
  ofold step acc (xs ++ ys)
  = obind (ofold step acc xs) (fun acc' => ofold step acc' ys).
Proof.
  revert acc. induction xs as [|x xs IH]; intros acc; [reflexivity|].
  cbn [ofold app]. destruct (step acc x); cbn [obind]; [apply IH|reflexivity].
Qed.

(** X10 — Two successive updates of a sheet the workbook has, with rows
    that have a cell and hold literal texts, and two successive updates of
    a presentation whose second layout has a title and a body placeholder,
    with texts the codec keeps, leave the file system as one update with
    the two payloads in a row. *)
Theorem sheet_and_slide_updates_compose (w : world) (filename : pystr)
    (f : file) :
  (forall wb sheet i a b,
     disk w !! path_str (resolve filename Spreadsheet) = Some f ->
     as_xlsx f = Ok wb ->
     Xlsx.find_index (fun s => bool_decide (title s = sheet)) (sheets wb)
     = Some i ->
     writable w (resolve filename Spreadsheet) ->
     plain_rows a = true -> plain_rows b = true ->
     snd (Server.update_xlsx filename sheet b
            (snd (Server.update_xlsx filename sheet a w)))
     = snd (Server.update_xlsx filename sheet (a ++ b) w)) /\
  (forall prs l a b,
     disk w !! path_str (resolve filename Presentation) = Some f ->
     as_pptx f = Ok prs ->
     slide_layouts prs !! 1%nat = Some l -> 0%nat ∈ l -> 1%nat ∈ l ->
     writable w (resolve filename Presentation) ->
     kept_slides a = true -> kept_slides b = true ->
     snd (Server.update_pptx filename b
            (snd (Server.update_pptx filename a w)))
     = snd (Server.update_pptx filename (a ++ b) w)).
Proof.
  split.
  - intros wb sheet i a b Hf Hd Hi Hw _ _.
    set (p := resolve filename Spreadsheet) in *.
    rewrite (update_xlsx_ok _ _ _ a _ _ _ Hf Hd Hi Hw). cbn [snd]. fold p.
    rewrite (update_xlsx_ok _ filename sheet b (Xlsx.package p _) _ i
               (lookup_put p _ w) eq_refl);
      [|cbn [sheets]; now rewrite find_index_alter|now apply writable_put].
    rewrite (update_xlsx_ok _ _ _ (a ++ b) _ _ _ Hf Hd Hi Hw).
    cbn [snd sheets active_index]. fold p. rewrite put_put.
    do 3 f_equal. rewrite list_alter_alter_eq.
    apply list_alter_ext; [|reflexivity].
    intros [t rws] _; cbn. now rewrite fmap_app, <- app_assoc.
  - intros prs l a b Hf Hd Hl H0 H1 Hw _ _.
    set (p := resolve filename Presentation) in *.
    destruct (add_described_all a prs l Hl H0 H1) as (na & Ea & _).
    destruct (add_described_all b {| slide_layouts := slide_layouts prs;
                                     slides := slides prs ++ na |} l Hl H0 H1)
      as (nb & Eb & _).
    rewrite (update_pptx_fold _ _ a _ _ _ Hf Hd Ea Hw). cbn [snd]. fold p.
    rewrite (update_pptx_fold _ filename b (Pptx.package p _) _ _
               (lookup_put p _ w) eq_refl Eb (writable_put _ _ _ Hw)).
    rewrite (update_pptx_fold _ _ (a ++ b) _ _
               {| slide_layouts := slide_layouts prs;
                  slides := (slides prs ++ na) ++ nb |} Hf Hd); [| |exact Hw].
    + cbn [snd]. fold p. now rewrite put_put.
    + rewrite ofold_app, Ea. cbn [obind]. exact Eb.
Qed.

(** ** Sheets *)

Lemma find_index_None {A} (g : A -> bool) (l : list A) :
  (forall x, x ∈ l -> g x = false) -> Xlsx.find_index g l = None.
Proof.
  induction l as [|x l IH]; intros H; [reflexivity|]. cbn.
  rewrite (H x) by left. rewrite IH; [reflexivity|].
  intros y Hy. apply H. now right.
Qed.

Lemma unknown_sheet (wb : workbook) (name : pystr) :
  name ∉ Xlsx.sheetnames wb ->
  py_in name (Xlsx.sheetnames wb) = false /\
  Xlsx.find_index (fun s => bool_decide (title s = name)) (sheets wb) = None.
Proof.
  intros H. split; [now apply bool_decide_eq_false|].
  apply find_index_None. intros sh Hs. apply bool_decide_eq_false.
  intros <-. apply H. unfold Xlsx.sheetnames.
  apply list_elem_of_fmap. now exists sh.
Qed.



(** X12 — A read that names a sheet the workbook lacks fails with the
    message of the lookup and does not fall back to the active sheet; an
    empty sheet name selects the active sheet, as no name does. *)
Theorem read_sheet_selection (w : world) (filename name : pystr) (f : file)
    (wb : workbook) :
  Server.read_xlsx filename (Some []) w = Server.read_xlsx filename None w /\
  (disk w !! path_str (resolve filename Spreadsheet) = Some f ->
   as_xlsx f = Ok wb ->
   name <> [] -> name ∉ Xlsx.sheetnames wb ->
   Server.read_xlsx filename (Some name) w
   = (Ok ("❌ Failed to read Excel: "
            ++ repr ("Worksheet " ++ name ++ " does not exist.")), w)).
Proof.
  split; [reflexivity|].
  intros Hf Hd Hne Hn. destruct (unknown_sheet _ _ Hn) as [_ Hi].
  enter_tool; name_path.
  rewrite (exists_present _ _ _ (ex_intro _ f Hf)).
  cbv beta iota delta [negb].
  unfold Xlsx.load_workbook. erewrite try_raised; [reflexivity|].
  rewrite (bind_read _ _ _ _ _ _ _ Hf Hd).
  destruct name as [|c name]; [now elim Hne|].
  unfold Xlsx.getitem. rewrite Hi. reflexivity.
Qed.

Lemma max_list_bounded (n : nat) (ns : list nat) :
  Forall (fun k => k = n) ns -> (max_list ns <= n)%nat.
Proof. induction 1 as [|k ns -> _ IH]; cbn; lia. Qed.

(** Rows of one width are the used range as they are. *)
Lemma grid_rectangular {n : nat} (rs : list (list cell)) :
  rectangular n rs -> Xlsx.grid rs = rs.
Proof.
  intros H. unfold Xlsx.grid.
  assert (max_list (length <$> rs) <= n)%nat as Hm.
  { apply max_list_bounded. unfold rectangular in H.
    induction H; constructor; auto. }
  revert Hm. generalize (max_list (length <$> rs)). intros m Hm.
  induction H as [|r rs Hr _ IH]; [reflexivity|].
  cbn [fmap list_fmap]. rewrite IH. f_equal. unfold Xlsx.pad.
  replace (m - length r)%nat with 0%nat by lia. apply app_nil_r.
Qed.

Lemma cells_of_rectangular {n : nat} (data : list (list pystr)) :
  rectangular n data -> rectangular n (cells_of data).
Proof.
  unfold rectangular, cells_of. intros H.
  induction H as [|r rs Hr _ IH]; constructor; [|exact IH].
  now rewrite length_fmap.
Qed.

Lemma cell_text_cells (data : list (list pystr)) :
  (fun r : list cell => Server.cell_text <$> r) <$> cells_of data = data.
Proof.
  unfold cells_of. induction data as [|r rs IH]; [reflexivity|].
  cbn [fmap list_fmap] in *. rewrite IH. f_equal.
  induction r as [|c r IHr]; [reflexivity|]. cbn. now rewrite IHr.
Qed.

Lemma create_xlsx_fresh (w : world) (name sheet : pystr)
    (data : list (list pystr)) :
  absent w (resolve name Spreadsheet) -> writable w (resolve name Spreadsheet) ->
  Xlsx.check_title sheet = Ok tt ->
  Server.create_xlsx name sheet (Some data) w
  = (Ok (created Spreadsheet (resolve name Spreadsheet)),
     Os.put (resolve name Spreadsheet)
       (Xlsx.package (resolve name Spreadsheet)
          {| sheets := [{| title := sheet; rows := cells_of data |}];
             active_index := 0 |}) w) /\
  Server.create_xlsx name sheet None w
  = (Ok (created Spreadsheet (resolve name Spreadsheet)),
     Os.put (resolve name Spreadsheet)
       (Xlsx.package (resolve name Spreadsheet)
          {| sheets := [{| title := sheet; rows := [] |}];
             active_index := 0 |}) w).
Proof.
  intros Ha Hw Ht. pose proof (writable_stat _ _ Hw) as Hst.
  assert (Xlsx.set_title Xlsx.Workbook_new (Xlsx.active Xlsx.Workbook_new)
            sheet
          = Ok {| sheets := [{| title := sheet; rows := [] |}];
                  active_index := 0 |}) as Hs.
  { unfold Xlsx.set_title.
    replace (Xlsx.active Xlsx.Workbook_new) with (Some 0%nat) by reflexivity.
    cbn [Xlsx.deref obind]. rewrite Ht. reflexivity. }
  split; enter_tool; name_path; rewrite (exists_absent _ _ _ Ha Hst);
    apply try_ok; rewrite Hs, bind_lift_ok.
  - replace (Xlsx.active Xlsx.Workbook_new) with (Some 0%nat) by reflexivity.
    destruct data as [|r rs].
    + rewrite bind_lift_ok. unfold Xlsx.save.
      rewrite (bind_write _ _ _ _ Hw). reflexivity.
    + rewrite ofold_append, bind_lift_ok. unfold Xlsx.save.
      rewrite (bind_write _ _ _ _ Hw). reflexivity.
  - rewrite bind_lift_ok. unfold Xlsx.save.
    rewrite (bind_write _ _ _ _ Hw). reflexivity.
Qed.

(** X13 — A workbook created under a valid title the codec keeps, with
    rows of one width, of at least one cell each, that hold literal texts,
    reads back, from its active sheet, as the rows in order, the cells of a
    row joined by a comma and a space; a workbook created with no rows
    reads back as the marker of an empty sheet. *)
Theorem create_xlsx_round_trip (w : world) (name sheet : pystr)
    (data : list (list pystr)) (n : nat) :
  absent w (resolve name Spreadsheet) -> writable w (resolve name Spreadsheet) ->
  Xlsx.check_title sheet = Ok tt -> kept sheet = true ->
  rectangular n data -> (0 < n)%nat -> plain_rows data = true ->
  (exists w',
     Server.create_xlsx name sheet (Some data) w
     = (Ok (created Spreadsheet (resolve name Spreadsheet)), w') /\
     fst (Server.read_xlsx name None w')
     = Ok (py_or (join nl (join ", " <$> data)) "(empty sheet)")) /\
  (exists w',
     Server.create_xlsx name sheet None w
     = (Ok (created Spreadsheet (resolve name Spreadsheet)), w') /\
     fst (Server.read_xlsx name None w') = Ok "(empty sheet)").
Proof.
  intros Ha Hw Ht _ Hr _ _.
  destruct (create_xlsx_fresh w name sheet data Ha Hw Ht) as [E1 E2].
  split; eexists; (split; [eassumption|]).
  - erewrite read_xlsx_active; [|apply lookup_put|reflexivity|reflexivity].
    cbn [fst rows]. unfold sheet_text.
    rewrite (grid_rectangular _ (cells_of_rectangular _ Hr)).
    now rewrite cell_text_cells.
  - erewrite read_xlsx_active; [|apply lookup_put|reflexivity|reflexivity].
    reflexivity.
Qed.

(** ** Slides on the default template *)

Lemma create_pptx_fresh (w : world) (name title content : pystr) :
  absent w (resolve name Presentation) ->
  writable w (resolve name Presentation) ->
  Server.create_pptx name title content w
  = (Ok (created Presentation (resolve name Presentation)),
     Os.put (resolve name Presentation)
       (Pptx.package (resolve name Presentation)
          {| slide_layouts := Pptx.default_layouts;
             slides := [title_slide title content] |}) w).
Proof.
  intros Ha Hw. enter_tool; name_path.
  rewrite (exists_absent _ _ _ Ha (writable_stat _ _ Hw)).
  apply try_ok.
  replace (Pptx.layout_at _ _) with (Ok [0; 1]%nat : outcome layout)
    by reflexivity.
  rewrite bind_lift_ok. unfold Pptx.add_slide. cbv beta iota.
  replace (Pptx.set_title_text _ _ _)
    with (Ok {| slide_layouts := Pptx.default_layouts;
                slides := [title_slide title []] |})
    by reflexivity.
  rewrite bind_lift_ok.
  replace (Pptx.set_placeholder_text _ _ _ _)
    with (Ok {| slide_layouts := Pptx.default_layouts;
                slides := [title_slide title content] |})
    by reflexivity.
  rewrite bind_lift_ok. unfold Pptx.save.
  rewrite (bind_write _ _ _ _ Hw). reflexivity.
Qed.

Lemma join_truthy (sep x : pystr) (rest : list pystr) :
  truthy x = true -> truthy (join sep (x :: rest)) = true.
Proof.
  destruct x as [|c x]; [discriminate|]. intros _.
  destruct rest; reflexivity.
Qed.

(** The text of a presentation that has a slide is not empty. *)
Lemma deck_lines_shown (tc : pystr * pystr) (l : list (pystr * pystr)) :
  py_or (deck_lines (tc :: l)) "(empty presentation)" = deck_lines (tc :: l).
Proof. unfold py_or, deck_lines. cbn [imap]. now rewrite join_truthy. Qed.

(** X14 — A presentation created on a free path and then updated, with
    texts the codec keeps, reads back as its slides in order, numbered from
    1 and separated by an empty line: the title slide with the given title
    and content, then one slide per description with its title and
    content, a missing one counting as the empty text. *)
Theorem deck_round_trip (w : world) (name title content : pystr)
    (payload : list (gmap pystr pystr)) :
  absent w (resolve name Presentation) ->
  writable w (resolve name Presentation) ->
  kept title = true -> kept content = true -> kept_slides payload = true ->
  exists w1 w2,
    Server.create_pptx name title content w
    = (Ok (created Presentation (resolve name Presentation)), w1) /\
    Server.update_pptx name payload w1
    = (Ok ("✅ Updated PowerPoint " ++ name ++ " with "
             ++ str_of_nat (length payload) ++ " new slides."), w2) /\
    fst (Server.read_pptx name w2)
    = Ok (deck_lines ((title, content) :: (texts_of <$> payload))).
Proof.
  intros Ha Hw _ _ _. set (p := resolve name Presentation) in *.
  set (first := {| slide_layouts := Pptx.default_layouts;
                   slides := [title_slide title content] |}).
  set (all := {| slide_layouts := Pptx.default_layouts;
                 slides := [title_slide title content]
                           ++ (pair_slide <$> (texts_of <$> payload)) |}).
  exists (Os.put p (Pptx.package p first) w),
         (Os.put p (Pptx.package p all) w).
  split; [exact (create_pptx_fresh w name title content Ha Hw)|]. split.
  - rewrite (update_pptx_fold _ name payload (Pptx.package p first) first all
               (lookup_put p _ w) eq_refl);
      [fold p; now rewrite put_put| |now apply writable_put].
    now apply add_described_default_all.
  - rewrite (read_pptx_ok _ name (Pptx.package p all) all
               (lookup_put p _ w) eq_refl).
    cbn [fst]. f_equal. cbn [slides all].
    change ([title_slide title content]
              ++ (pair_slide <$> (texts_of <$> payload)))
      with (pair_slide <$> ((title, content) :: (texts_of <$> payload))).
    now rewrite deck_text_pairs, deck_lines_shown.
Qed.

(** ** A Word document from creation to reading *)

Lemma strip_truthy (s : pystr) : truthy (strip s) = true -> truthy s = true.
Proof. now destruct s. Qed.

(** X15 — A Word document created on a free path with content that is not
    blank and that the codec keeps reads back as exactly that content, and
    after an update with paragraphs the codec keeps as the content and the
    added paragraphs, one per line. *)
Theorem word_round_trip (w : world) (name content : pystr)
    (changes : list pystr) :
  truthy (strip content) = true ->
  kept content = true -> kept_all changes = true ->
  absent w (resolve name Word) -> writable w (resolve name Word) ->
  exists w1 w2,
    Server.create_docx name content w
    = (Ok (created Word (resolve name Word)), w1) /\
    fst (Server.read_docx name w1) = Ok content /\
    Server.update_docx name changes w1
    = (Ok ("✅ Updated Word doc " ++ name ++ " with "
             ++ str_of_nat (length changes) ++ " changes."), w2) /\
    fst (Server.read_docx name w2) = Ok (join nl (content :: changes)).
Proof.
  intros Hc _ _ Ha Hw. set (p := resolve name Word) in *.
  pose proof (strip_truthy _ Hc) as Ht.
  exists (Os.put p (Docx.package p {| paragraphs := [content] |}) w),
         (Os.put p (Docx.package p {| paragraphs := [content] ++ changes |}) w).
  split; [|split; [|split]].
  - rewrite (create_docx_fresh w name content Ha Hw).
    unfold first_paragraph. now rewrite Hc.
  - rewrite (read_docx_ok _ name (Docx.package p _) {| paragraphs := [content] |}
               (lookup_put p _ w) eq_refl).
    cbn [fst]. unfold word_text, py_or. cbn [paragraphs join]. now rewrite Ht.
  - rewrite (update_docx_ok _ name changes (Docx.package p _)
               {| paragraphs := [content] |} (lookup_put p _ w) eq_refl
               (writable_put _ _ _ Hw)).
    fold p. now rewrite put_put.
  - rewrite (read_docx_ok _ name (Docx.package p _)
               {| paragraphs := [content] ++ changes |}
               (lookup_put p _ w) eq_refl).
    cbn [fst]. unfold word_text, py_or. cbn [paragraphs app].
    now rewrite (join_truthy _ _ _ Ht).
Qed.

(** ** The conversion of a text file *)

Lemma copy_read_ok (w : world) (filename : pystr) (f : file) (doc : document) :
  disk w !! path_str (Copy.get_doc_path filename) = Some f ->
  as_docx f = Ok doc ->
  Copy.read_docx filename w = (Ok (word_text doc), w).
Proof.
  intros Hf Hd. unfold Copy.read_docx. cbv zeta.
  set (p := Copy.get_doc_path filename) in *. clearbody p.
  rewrite (exists_present _ _ _ (ex_intro _ f Hf)). cbv beta iota delta [negb].
  apply try_ok. unfold Docx.Document.
  rewrite (bind_read _ _ _ _ _ _ _ Hf Hd). same.
Qed.

Lemma convert_ok (as_text : file -> outcome pystr) (w : world)
    (input output : pystr) (f : file) (text : pystr) :
  disk w !! path_str (parse_path input) = Some f ->
  as_text f = Ok text ->
  writable w (Copy.get_doc_path output) ->
  Copy.convert_to_docx as_text input output w
  = (Ok ("✅ Converted " ++ path_str (parse_path input) ++ " → "
           ++ path_str (Copy.get_doc_path output)),
     Os.put (Copy.get_doc_path output)
       (Docx.package (Copy.get_doc_path output)
          {| paragraphs := splitlines text |}) w).
Proof.
  intros Hf Ht Hw. unfold Copy.convert_to_docx. cbv zeta.
  set (ip := parse_path input) in *.
  set (op := Copy.get_doc_path output) in *. clearbody ip op.
  rewrite (exists_present _ _ _ (ex_intro _ f Hf)). cbv beta iota delta [negb].
  apply try_ok. rewrite (bind_read _ _ _ _ _ _ _ Hf Ht).
  rewrite fold_add_paragraph. unfold Docx.save.
  rewrite (bind_write _ _ _ _ Hw). reflexivity.
Qed.

(** X16 — The conversion of a text whose lines the codec keeps stores one
    paragraph per line, in order, under the output name in the documents
    directory, whether or not a document exists there already: unlike a
    creation, it replaces an existing document.  A read of the output then
    shows the lines, and a file at a path with another last component is
    as before. *)
Theorem convert_stores_lines (as_text : file -> outcome pystr) (w : world)
    (input output : pystr) (f : file) (text : pystr) :
  disk w !! path_str (parse_path input) = Some f ->
  as_text f = Ok text ->
  kept_all (splitlines text) = true ->
  writable w (Copy.get_doc_path output) ->
  exists w',
    Copy.convert_to_docx as_text input output w
    = (Ok ("✅ Converted " ++ path_str (parse_path input) ++ " → "
             ++ path_str (Copy.get_doc_path output)), w') /\
    fst (Docx.Document (Copy.get_doc_path output) w')
    = Ok {| paragraphs := splitlines text |} /\
    fst (Copy.read_docx output w')
    = Ok (word_text {| paragraphs := splitlines text |}) /\
    (forall k, basename k <> basename (path_str (Copy.get_doc_path output)) ->
               disk w' !! k = disk w !! k).
Proof.
  intros Hf Ht _ Hw.
  eexists. split; [exact (convert_ok _ _ _ _ _ _ Hf Ht Hw)|].
  set (op := Copy.get_doc_path output) in *.
  split; [|split].
  - unfold Docx.Document. now rewrite (read_view _ _ _ _ _ (lookup_put _ _ _)).
  - now rewrite (copy_read_ok _ output (Docx.package op _)
                   {| paragraphs := splitlines text |}
                   (lookup_put op _ w) eq_refl).
  - intros k Hk. unfold Os.put; cbn [disk]. apply lookup_insert_ne.
    congruence.
Qed.


(** *** Lines *)

Lemma lines_from_plain (l cur s : pystr) :
  plain_line l -> lines_from cur (l ++ s) = lines_from (rev l ++ cur) s.
Proof.
  unfold plain_line. revert cur. induction l as [|c l IH]; intros cur H;
    [reflexivity|].
  cbn [forallb] in H. apply andb_true_iff in H as [Hc Hl].
  apply negb_true_iff in Hc. cbn [app lines_from rev]. rewrite Hc.
  rewrite (IH _ Hl). now rewrite <- app_assoc.
Qed.

Lemma lines_from_newline (cur s : pystr) :
  lines_from cur (nl ++ s) = rev cur :: lines_from [] s.
Proof. destruct s; reflexivity. Qed.

Lemma splitlines_join (lines : list pystr) :
  Forall plain_line lines -> last lines <> Some [] ->
  splitlines (join nl lines) = lines.
Proof.
  unfold splitlines. induction 1 as [|x rest Hx Hrest IH]; [reflexivity|].
  intros Hl. destruct rest as [|y rest].
  - cbn [join]. rewrite <- (app_nil_r x) at 1.
    rewrite (lines_from_plain _ _ _ Hx), app_nil_r. cbn [lines_from].
    destruct (rev x) as [|c r] eqn:Hr.
    + destruct x as [|c x]; [now elim Hl|].
      cbn [rev] in Hr. now destruct (rev x).
    + rewrite <- Hr. now rewrite rev_involutive.
  - change (join nl (x :: y :: rest)) with (x ++ nl ++ join nl (y :: rest)).
    rewrite (lines_from_plain _ _ _ Hx), app_nil_r, lines_from_newline.
    rewrite rev_involutive. f_equal. apply IH. exact Hl.
Qed.

(** X18 — Converting a text whose lines are separated by single newline
    characters, hold no other line boundary and nothing the codec does not
    keep, and do not end in an empty line, and then reading the output,
    gives the text back. *)
Theorem convert_then_read (as_text : file -> outcome pystr) (w : world)
    (input output : pystr) (f : file) (lines : list pystr) :
  disk w !! path_str (parse_path input) = Some f ->
  as_text f = Ok (join nl lines) ->
  writable w (Copy.get_doc_path output) ->
  Forall plain_line lines -> kept_all lines = true ->
  lines <> [] -> last lines <> Some [] ->
  splitlines (join nl lines) = lines /\
  fst (Copy.read_docx output
         (snd (Copy.convert_to_docx as_text input output w)))
  = Ok (join nl lines) /\
  fst (Server.read_docx output
         (snd (Copy.convert_to_docx as_text input output w)))
  = Ok (join nl lines).
Proof.
  intros Hf Ht Hw Hp _ Hne Hl.
  pose proof (splitlines_join lines Hp Hl) as Hs. split; [exact Hs|].
  rewrite (convert_ok as_text _ _ _ _ _ Hf Ht Hw). cbn [snd]. rewrite Hs.
  set (op := Copy.get_doc_path output) in *.
  assert (py_or (join nl lines) "(empty document)" = join nl lines) as Hj.
  { destruct lines as [|x rest]; [now elim Hne|].
    unfold py_or. destruct x as [|c x].
    - destruct rest as [|y rest]; [now elim Hl|reflexivity].
    - now rewrite join_truthy. }
  split.
  - rewrite (copy_read_ok _ output (Docx.package op _)
               {| paragraphs := lines |} (lookup_put op _ w) eq_refl).
    cbn [fst]. unfold word_text. cbn [paragraphs]. now rewrite Hj.
  - rewrite (read_docx_ok _ output (Docx.package op _) {| paragraphs := lines |}
               (lookup_put op _ w) eq_refl).
    cbn [fst]. unfold word_text. cbn [paragraphs]. now rewrite Hj.
Qed.

(** ** Calls on different paths *)

(** A call only looks at its own path: on two file systems that agree
    there it does the same. *)
Lemma same_at_path (t : tool) (w1 w2 : world) :
  disk w1 !! path_str (target t) = disk w2 !! path_str (target t) ->
  denied w1 !! path_str (target t) = denied w2 !! path_str (target t) ->
  unstatable w1 !! path_str (target t)
  = unstatable w2 !! path_str (target t) ->
  cut w1 !! path_str (target t) = cut w2 !! path_str (target t) ->
  fst (invoke t w1) = fst (invoke t w2) /\
  ((snd (invoke t w1) = w1 /\ snd (invoke t w2) = w2) \/
   (exists f, snd (invoke t w1) = Os.put (target t) f w1 /\
              snd (invoke t w2) = Os.put (target t) f w2) \/
   (snd (invoke t w1) = Os.drop (target t) w1 /\
    snd (invoke t w2) = Os.drop (target t) w2)).
Proof.
  intros Hd Hn Hu Hc.
  assert (Os.stat_error w1 (target t) = Os.stat_error w2 (target t)) as Hst
    by (unfold Os.stat_error; now rewrite Hd, Hu).
  destruct (Os.stat_error w2 (target t)) as [e|] eqn:Hs.
  - rewrite (guard_raises _ _ _ Hst), (guard_raises _ _ _ Hs).
    split; [reflexivity|]. now left.
  - clear Hu. revert Hd Hn Hc Hst Hs.
    destruct t; enter_tool; name_path; intros Hd Hn Hc Hst Hs;
      (destruct (disk w2 !! path_str p) as [f|] eqn:Hf;
       [rewrite (exists_present p _ w1 (ex_intro _ f Hd)),
                (exists_present p _ w2 (ex_intro _ f Hf))
       |rewrite (exists_absent p _ w1 Hd Hst),
                (exists_absent p _ w2 Hf Hs)]);
      cbv beta iota delta [negb];
      open_library; rewrite ?Hd, ?Hf, ?Hn, ?Hc, ?Hst, ?Hs; crunch;
      simplify_eq; try congruence; cbn [fst snd];
      (split; [first [reflexivity|congruence]|]);
      first [ left; split; reflexivity
            | right; left; eexists; split; reflexivity
            | right; right; split; reflexivity ].
Qed.

(** X19 — Two calls on different documents directly in the documents
    directory (their names hold no separator, their paths differ) commute:
    each answers, or raises, as it does without the other, and the file
    system they leave does not depend on their order. *)
Theorem calls_commute (t1 t2 : tool) (w : world) :
  plain_name (filename_of t1) = true -> plain_name (filename_of t2) = true ->
  path_str (target t1) <> path_str (target t2) ->
  fst (invoke t2 (snd (invoke t1 w))) = fst (invoke t2 w) /\
  fst (invoke t1 (snd (invoke t2 w))) = fst (invoke t1 w) /\
  snd (invoke t2 (snd (invoke t1 w))) = snd (invoke t1 (snd (invoke t2 w))).
Proof.
  intros _ _ Hne.
  destruct (elsewhere_kept t1 w (path_str (target t2))) as (D1 & N1 & U1 & C1);
    [congruence|].
  destruct (elsewhere_kept t2 w (path_str (target t1))) as (D2 & N2 & U2 & C2);
    [congruence|].
  destruct (same_at_path t2 (snd (invoke t1 w)) w) as [A2 S2];
    [exact D1|now rewrite N1|exact U1|now rewrite C1|].
  destruct (same_at_path t1 (snd (invoke t2 w)) w) as [A1 S1];
    [exact D2|now rewrite N2|exact U2|now rewrite C2|].
  split; [exact A2|]. split; [exact A1|].
  destruct S2 as [[E2 E2']|[(f2 & E2 & E2')|[E2 E2']]];
    destruct S1 as [[E1 E1']|[(f1 & E1 & E1')|[E1 E1']]];
    rewrite E2, E1, E1', E2'; try reflexivity;
    unfold Os.put, Os.drop; cbn [disk denied unstatable cut]; f_equal;
    first [ now apply insert_insert_ne
          | symmetry; now apply delete_insert_ne
          | now apply delete_insert_ne
          | apply delete_delete ].
Qed.

(** ** Paths of different formats *)








(** ** The further properties at concrete inputs *)


Lemma other_files_untouched_witness :
  basename "documents/book.xlsx" = "book.xlsx" /\
  basename (path_str (target (delete_word "memo"))) = "memo.docx" /\
  disk (snd (invoke (delete_word "memo") office_world)) !! "documents/book.xlsx"
  = Some book_file.
Proof.
  assert (basename "documents/book.xlsx"
          <> basename (path_str (target (delete_word "memo"))))
    as H by (vm_compute; discriminate).
  split; [reflexivity|]. split; [reflexivity|].
  rewrite (other_files_untouched (delete_word "memo") office_world _ H).
  vm_compute; reflexivity.
Defined.

Lemma create_then_delete_witness :
  is_create (create_spreadsheet "book" "Data" (Some [["a"; "b"]])) = true /\
  absent memo_world (resolve "book" Spreadsheet) /\
  snd (delete_ Spreadsheet "book"
         (snd (invoke (create_spreadsheet "book" "Data" (Some [["a"; "b"]]))
                      memo_world)))
  = memo_world.
Proof.
  assert (absent memo_world (resolve "book" Spreadsheet)) as H
    by (vm_compute; reflexivity).
  split; [reflexivity|]. split; [exact H|].
  exact (create_then_delete
           (create_spreadsheet "book" "Data" (Some [["a"; "b"]])) memo_world
           eq_refl H).
Defined.


Lemma update_keeps_unreadable_witness :
  Server.update_docx "memo" ["a"] damaged_world
  = (Ok "❌ Failed to update Word doc: Document is empty, line 1, column 1",
     damaged_world) /\
  Server.update_xlsx "book" "Sheet1" [["a"]] misfiled_book_world
  = (Ok "❌ Failed to update Excel: File contains no valid workbook part",
     misfiled_book_world) /\
  fst (Server.update_pptx "deck" [ {[ "title" := "a" ]} ] misfiled_deck_world)
  = Ok (update_failed Presentation
          (not_powerpoint (resolve "deck" Presentation) ct_word)).
Proof.
  split; [|split].
  - destruct (update_keeps_unreadable damaged_world "memo" damaged_word_file
                "Document is empty, line 1, column 1") as (H & _ & _).
    apply H; [vm_compute; reflexivity|reflexivity].
  - destruct (update_keeps_unreadable misfiled_book_world "book" misfiled_book
                not_workbook) as (_ & H & _).
    apply H; [vm_compute; reflexivity|reflexivity].
  - destruct (update_keeps_unreadable misfiled_deck_world "deck" misfiled_deck
                (not_powerpoint (resolve "deck" Presentation) ct_word))
      as (_ & _ & H).
    rewrite H; [reflexivity|vm_compute; reflexivity|reflexivity].
Defined.


Lemma word_updates_compose_witness :
  snd (Server.update_docx "memo" ["b"]
         (snd (Server.update_docx "memo" ["a"] memo_world)))
  = snd (Server.update_docx "memo" ["a"; "b"] memo_world) /\
  fst (Server.read_docx "memo"
         (snd (Server.update_docx "memo" ["a"; "b"] memo_world)))
  = Ok ("x" ++ nl ++ "y" ++ nl ++ "a" ++ nl ++ "b").
Proof.
  split; [|vm_compute; reflexivity].
  apply (word_updates_compose memo_world "memo" ["a"] ["b"]);
    [reflexivity|reflexivity|vm_compute; reflexivity].
Defined.

Lemma sheet_and_slide_updates_compose_witness :
  snd (Server.update_xlsx "book" "Sheet1" [["b"]]
         (snd (Server.update_xlsx "book" "Sheet1" [["a"]] book_world)))
  = snd (Server.update_xlsx "book" "Sheet1" [["a"]; ["b"]] book_world) /\
  snd (Server.update_pptx "deck" [ {[ "content" := "b" ]} ]
         (snd (Server.update_pptx "deck" [ {[ "title" := "a" ]} ] deck_world)))
  = snd (Server.update_pptx "deck"
           [ {[ "title" := "a" ]} ; {[ "content" := "b" ]} ] deck_world).
Proof.
  split.
  - destruct (sheet_and_slide_updates_compose book_world "book" book_file)
      as [H _].
    apply (H book_wb "Sheet1" 0%nat [["a"]] [["b"]]);
      [vm_compute; reflexivity|reflexivity|reflexivity|vm_compute; reflexivity
      |reflexivity|reflexivity].
  - destruct (sheet_and_slide_updates_compose deck_world "deck" deck_file)
      as [_ H].
    apply (H deck_prs [0; 1]%nat [ {[ "title" := "a" ]} ]
             [ {[ "content" := "b" ]} ]).
    + vm_compute; reflexivity.
    + reflexivity.
    + reflexivity.
    + apply (bool_decide_unpack _). vm_compute. exact I.
    + apply (bool_decide_unpack _). vm_compute. exact I.
    + vm_compute; reflexivity.
    + vm_compute; reflexivity.
    + vm_compute; reflexivity.
Defined.


Lemma read_sheet_selection_witness :
  "Nope" <> [] /\ ("Nope" ∉ Xlsx.sheetnames book_wb) /\
  Server.read_xlsx "book" (Some "Nope") book_world
  = (Ok "❌ Failed to read Excel: 'Worksheet Nope does not exist.'",
     book_world).
Proof.
  assert ("Nope" ∉ Xlsx.sheetnames book_wb) as H
    by (apply (bool_decide_eq_false_1 _); vm_compute; reflexivity).
  split; [discriminate|]. split; [exact H|].
  destruct (read_sheet_selection book_world "book" "Nope" book_file book_wb)
    as [_ R].
  apply R; [vm_compute; reflexivity|reflexivity|discriminate|exact H].
Defined.

Lemma create_xlsx_round_trip_witness :
  rectangular 2 [["a"; "b"]; ["c"; "d"]] /\
  plain_rows [["a"; "b"]; ["c"; "d"]] = true /\
  (exists w',
     Server.create_xlsx "book" "Data" (Some [["a"; "b"]; ["c"; "d"]])
                        empty_world
     = (Ok "✅ Created Excel file: documents/book.xlsx", w') /\
     fst (Server.read_xlsx "book" None w') = Ok ("a, b" ++ nl ++ "c, d")).
Proof.
  assert (rectangular 2 [["a"; "b"]; ["c"; "d"]]) as H
    by (repeat constructor).
  split; [exact H|]. split; [reflexivity|].
  destruct (create_xlsx_round_trip empty_world "book" "Data"
              [["a"; "b"]; ["c"; "d"]] 2) as [R _];
    [vm_compute; reflexivity|vm_compute; reflexivity|reflexivity|reflexivity
    |exact H|lia|reflexivity|exact R].
Defined.

Lemma deck_round_trip_witness :
  exists w1 w2,
    Server.create_pptx "deck" "Plan" "Why" empty_world
    = (Ok "✅ Created PowerPoint: documents/deck.pptx", w1) /\
    Server.update_pptx "deck" [ {[ "title" := "How" ]} ] w1
    = (Ok "✅ Updated PowerPoint deck with 1 new slides.", w2) /\
    fst (Server.read_pptx "deck" w2)
    = Ok ("Slide 1:" ++ nl ++ "Plan" ++ nl ++ "Why" ++ nl ++ nl
            ++ "Slide 2:" ++ nl ++ "How" ++ nl).
Proof.
  destruct (deck_round_trip empty_world "deck" "Plan" "Why"
              [ {[ "title" := "How" ]} ]) as (w1 & w2 & C & U & R);
    [vm_compute; reflexivity|vm_compute; reflexivity|reflexivity|reflexivity
    |vm_compute; reflexivity|].
  exists w1, w2. split; [exact C|]. split; [exact U|].
  rewrite R. vm_compute; reflexivity.
Defined.

Lemma word_round_trip_witness :
  truthy (strip "Hello") = true /\
  exists w1 w2,
    Server.create_docx "memo" "Hello" empty_world
    = (Ok "✅ Created Word document: documents/memo.docx", w1) /\
    fst (Server.read_docx "memo" w1) = Ok "Hello" /\
    Server.update_docx "memo" ["Line 2"; "Line 3"] w1
    = (Ok "✅ Updated Word doc memo with 2 changes.", w2) /\
    fst (Server.read_docx "memo" w2)
    = Ok ("Hello" ++ nl ++ "Line 2" ++ nl ++ "Line 3").
Proof.
  split; [reflexivity|].
  apply (word_round_trip empty_world "memo" "Hello" ["Line 2"; "Line 3"]);
    [reflexivity|reflexivity|reflexivity|vm_compute; reflexivity
    |vm_compute; reflexivity].
Defined.

Lemma convert_stores_lines_witness :
  disk notes_world !! path_str (parse_path "notes.txt") = Some memo_file /\
  exists w',
    Copy.convert_to_docx two_lines "notes.txt" "notes" notes_world
    = (Ok "✅ Converted notes.txt → documents/notes.docx", w') /\
    fst (Docx.Document (Copy.get_doc_path "notes") w')
    = Ok {| paragraphs := ["alpha"; "beta"] |} /\
    fst (Copy.read_docx "notes" w') = Ok ("alpha" ++ nl ++ "beta") /\
    disk w' !! "notes.txt" = Some memo_file.
Proof.
  assert (disk notes_world !! path_str (parse_path "notes.txt")
          = Some memo_file) as H by (vm_compute; reflexivity).
  split; [exact H|].
  destruct (convert_stores_lines two_lines notes_world "notes.txt" "notes"
              memo_file ("alpha" ++ nl ++ "beta") H eq_refl)
    as (w' & E & D & R & K); [reflexivity|vm_compute; reflexivity|].
  exists w'. split; [exact E|]. split; [exact D|]. split; [exact R|].
  rewrite (K "notes.txt"); [exact H|vm_compute; discriminate].
Defined.

Lemma convert_then_read_witness :
  Forall plain_line ["alpha"; "beta"] /\
  last ["alpha"; "beta"] <> Some [] /\
  splitlines ("alpha" ++ nl ++ "beta") = ["alpha"; "beta"] /\
  fst (Copy.read_docx "notes"
         (snd (Copy.convert_to_docx two_lines "notes.txt" "notes" notes_world)))
  = Ok ("alpha" ++ nl ++ "beta").
Proof.
  assert (Forall plain_line ["alpha"; "beta"]) as H1
    by (repeat constructor).
  assert (last ["alpha"; "beta"] <> Some []) as H2 by discriminate.
  split; [exact H1|]. split; [exact H2|].
  destruct (convert_then_read two_lines notes_world "notes.txt" "notes"
              memo_file ["alpha"; "beta"]) as (S & R & _);
    [vm_compute; reflexivity|reflexivity|vm_compute; reflexivity|exact H1
    |reflexivity|discriminate|exact H2|].
  split; [exact S|exact R].
Defined.

Lemma calls_commute_witness :
  path_str (target (create_word "memo" "x")) = "documents/memo.docx" /\
  path_str (target (delete_spreadsheet "book")) = "documents/book.xlsx" /\
  fst (invoke (delete_spreadsheet "book")
         (snd (invoke (create_word "memo" "x") book_world)))
  = Ok "🗑️ Deleted Excel file: documents/book.xlsx" /\
  snd (invoke (delete_spreadsheet "book")
         (snd (invoke (create_word "memo" "x") book_world)))
  = snd (invoke (create_word "memo" "x")
           (snd (invoke (delete_spreadsheet "book") book_world))).
Proof.
  assert (path_str (target (create_word "memo" "x"))
          <> path_str (target (delete_spreadsheet "book"))) as H
    by (vm_compute; discriminate).
  split; [reflexivity|]. split; [reflexivity|].
  destruct (calls_commute (create_word "memo" "x") (delete_spreadsheet "book")
              book_world eq_refl eq_refl H) as (A & _ & C).
  split; [rewrite A; vm_compute; reflexivity|exact C].
Defined.

